(** * PII tokenization through a VGS proxy: client, HTTP facade, batch driver

    A shallow embedding of

    - [src/data_pipeline/pii/vgs_client.py]  (module [vgs_client]),
    - [apps/tokenization_api.py]             (module [tokenization_api]),
    - [scripts/tokenize_pii_vgs.py]          (module [tokenize_pii_vgs]),

    followed by the properties of the specification, each settled on the
    embedded code.

    Python values are JSON-shaped ([Any]); exceptions are first-class results;
    the network, the process environment, the file system and standard output
    are fields of an explicit [World] threaded through every effectful
    function. *)

From Stdlib Require Import ZArith String List Ascii Lia.
From Stdlib Require Import Floats.SpecFloat.
From stdpp Require Import gmap strings list pretty.

Open Scope string_scope.
Open Scope Z_scope.

(** ** Python values *)

Set Warnings "-register-all".

(** What [json.loads] / [Response.json()] produce and what the code passes
    around as [Any].  [JNull] is Python's [None]; a [dict] keeps its keys in
    insertion order. *)
Inductive JSON : Type :=
| JNull
| JBool (b : bool)
| JInt (n : Z)
| JFloat (f : spec_float)
| JStr (s : string)
| JList (items : list JSON)
| JDict (fields : list (string * JSON)).

(** Truth value of an object, as [if x:] and [x or y] test it. *)
Definition truthy (v : JSON) : bool :=
  match v with
  | JNull => false
  | JBool b => b
  | JInt n => negb (n =? 0)
  | JFloat (S754_zero _) => false
  | JFloat _ => true
  | JStr s => negb (String.eqb s "")
  | JList l => match l with [] => false | _ => true end
  | JDict d => match d with [] => false | _ => true end
  end.

(** [batch_key] is an [Optional[str]]; [if batch_key:] holds for a non-empty
    string only. *)
Definition truthy_key (batch_key : option string) : option string :=
  match batch_key with
  | Some k => if String.eqb k "" then None else Some k
  | None => None
  end.

(** [isinstance(v, dict)] and [isinstance(v, list)]. *)
Definition is_dict (v : JSON) : bool :=
  match v with JDict _ => true | _ => false end.

Definition is_list (v : JSON) : bool :=
  match v with JList _ => true | _ => false end.

(** [d.get(k)] on the items of a dict. *)
Fixpoint dict_get (k : string) (d : list (string * JSON)) : option JSON :=
  match d with
  | [] => None
  | (k', v) :: d' => if String.eqb k k' then Some v else dict_get k d'
  end.

(** [d[k] = v]: an existing key keeps its position, a new one goes last. *)
Fixpoint dict_set (k : string) (v : JSON) (d : list (string * JSON))
  : list (string * JSON) :=
  match d with
  | [] => [(k, v)]
  | (k', v') :: d' =>
      if String.eqb k k' then (k', v) :: d' else (k', v') :: dict_set k v d'
  end.

(** [{**a, **b}]. *)
Definition dict_merge (a b : list (string * JSON)) : list (string * JSON) :=
  fold_left (fun acc kv => dict_set (fst kv) (snd kv) acc) b a.

(** Name of a value's type, as it appears in interpreter messages. *)
Definition type_name (v : JSON) : string :=
  match v with
  | JNull => "NoneType"
  | JBool _ => "bool"
  | JInt _ => "int"
  | JFloat _ => "float"
  | JStr _ => "str"
  | JList _ => "list"
  | JDict _ => "dict"
  end.

(** ** Exceptions and results *)

Inductive ExcClass : Type :=
| RuntimeError
| ValueError
| JSONDecodeError        (* json.JSONDecodeError, a ValueError *)
| UnicodeDecodeError     (* a ValueError *)
| TypeError
| AttributeError
| FileNotFoundError
| ValidationError        (* pydantic *)
| HTTPError              (* httpx transport errors: connect, timeout, ... *)
| HTTPStatusError.       (* httpx.HTTPStatusError, raised by raise_for_status *)

(** An exception with the text [str(e)] gives; FastAPI's [HTTPException]
    carries a status code and a detail instead, and prints as
    "<status_code>: <detail>". *)
Inductive exn : Type :=
| Exc (cls : ExcClass) (msg : string)
| HTTPException (status_code : Z) (detail : string).

Definition exc_str (e : exn) : string :=
  match e with
  | Exc _ msg => msg
  | HTTPException status_code detail => pretty status_code ++ ": " ++ detail
  end.

(** [isinstance(e, ValueError)], the test of [except ValueError]. *)
Definition is_ValueError (e : exn) : bool :=
  match e with
  | Exc ValueError _ | Exc JSONDecodeError _ | Exc UnicodeDecodeError _ => true
  | _ => false
  end.

Inductive Result (A : Type) : Type :=
| Ok (a : A)
| Raise (e : exn).

Arguments Ok {A} a.
Arguments Raise {A} e.

(** [len(v)] and iteration over [v] (what [list.extend(v)] appends). *)
Definition py_len (v : JSON) : Result nat :=
  match v with
  | JList l => Ok (length l)
  | JDict d => Ok (length d)
  | JStr s => Ok (String.length s)
  | _ => Raise (Exc TypeError
                  ("object of type '" ++ type_name v ++ "' has no len()"))
  end.

Fixpoint chars (s : string) : list JSON :=
  match s with
  | EmptyString => []
  | String c s' => JStr (String c EmptyString) :: chars s'
  end.

Definition py_iter (v : JSON) : Result (list JSON) :=
  match v with
  | JList l => Ok l
  | JDict d => Ok (map (fun kv => JStr (fst kv)) d)
  | JStr s => Ok (chars s)
  | _ => Raise (Exc TypeError
                  ("'" ++ type_name v ++ "' object is not iterable"))
  end.

(** ** Strings *)

(** [s.rstrip(c)] for a single character [c]. *)
Fixpoint rstrip (c : ascii) (s : string) : string :=
  match s with
  | EmptyString => EmptyString
  | String a s' =>
      let r := rstrip c s' in
      if Ascii.eqb a c && String.eqb r "" then "" else String a r
  end.

(** [s.startswith("/")]. *)
Definition startswith_slash (s : string) : bool :=
  match s with
  | String a _ => Ascii.eqb a "/"
  | EmptyString => false
  end.

(** [s[:n]]. *)
Definition str_prefix (n : nat) (s : string) : string := substring 0 n s.

(** [t] occurs in [s]. *)
Definition contains (s t : string) : Prop :=
  exists pre post : string, s = pre ++ t ++ post.

(** ** Sequences *)

(** [range(start, stop, step)]; a zero step raises [ValueError]. *)
Definition py_range (start stop step : Z) : Result (list Z) :=
  if step =? 0 then Raise (Exc ValueError "range() arg 3 must not be zero")
  else
    let n :=
      if 0 <? step
      then (if start <? stop then (stop - start - 1) / step + 1 else 0)
      else (if stop <? start then (start - stop - 1) / (- step) + 1 else 0) in
    Ok (map (fun k => start + Z.of_nat k * step) (seq 0 (Z.to_nat n))).

(** [l[i:j]] with Python's clamping of out-of-range and negative bounds. *)
Definition slice_bound (len i : Z) : Z :=
  if i <? 0 then Z.max 0 (i + len) else Z.min i len.

Definition py_slice {A : Type} (i j : Z) (l : list A) : list A :=
  let len := Z.of_nat (length l) in
  let lo := slice_bound len i in
  let hi := slice_bound len j in
  firstn (Z.to_nat (hi - lo)) (skipn (Z.to_nat lo) l).

(** ** HTTP, as [httpx] presents it to the code *)

Record Request : Type := {
  req_url : string;
  req_headers : list (string * JSON);
  req_json : JSON;              (* the value passed as [json=] *)
  req_timeout : spec_float
}.

(** A received response, seen through the attributes the code reads:
    [resp.text], the outcome of [resp.json()] ([Raise e] when decoding the body
    raises [e]: a body that is not valid JSON gives a [ValueError]), and the
    text of the [HTTPStatusError] that [raise_for_status] builds for it. *)
Record Response : Type := {
  status_code : Z;
  text : string;
  json : Result JSON;
  status_error : string
}.

(** [client.post(...)] either raises (no connection, timeout, ...) or hands
    back a response. *)
Inductive NetOutcome : Type :=
| NetRaise (e : exn)
| NetResponse (r : Response).

(** [Response.is_success]: a 2xx status. *)
Definition is_success (r : Response) : bool :=
  (200 <=? status_code r) && (status_code r <=? 299).

(** [resp.raise_for_status()]. *)
Definition raise_for_status (r : Response) : Result unit :=
  if is_success r then Ok tt else Raise (Exc HTTPStatusError (status_error r)).

(** ** Tabular data, as [pandas] presents it to the code *)

Record DataFrame : Type := {
  columns : list string;
  rows : list (list JSON)
}.

(** [len(df)]. *)
Definition df_len (df : DataFrame) : Z := Z.of_nat (length (rows df)).

(** [df.iloc[i:j]]. *)
Definition iloc (i j : Z) (df : DataFrame) : DataFrame :=
  {| columns := columns df; rows := py_slice i j (rows df) |}.

(** [df.to_dict(orient="records")]: one dict per row, column names as keys. *)
Definition to_dict_records (df : DataFrame) : list JSON :=
  map (fun row => JDict (combine (columns df) row)) (rows df).

(** ** The world outside the process *)

(** - [environ]: [os.environ];
    - [server]: the remote peers, answering a request given the requests
      already received (so that a peer may answer one request differently
      from the next);
    - [sent]: the requests issued so far, oldest first;
    - [csv_files]: what [pd.read_csv] parses at each path;
    - [written]: for each path, the row list whose [pd.DataFrame(...)] was
      written there by [to_csv];
    - [stdout]: the lines printed. *)
Record World : Type := {
  environ : gmap string string;
  server : list Request -> Request -> NetOutcome;
  sent : list Request;
  csv_files : gmap string DataFrame;
  written : gmap string (list JSON);
  stdout : list string
}.

(** Effectful code: a result (or an exception) and the world after it. *)
Definition M (A : Type) : Type := World -> Result A * World.

Definition ret {A : Type} (a : A) : M A := fun w => (Ok a, w).

Definition raise {A : Type} (e : exn) : M A := fun w => (Raise e, w).

Definition bind {A B : Type} (m : M A) (k : A -> M B) : M B :=
  fun w =>
    match m w with
    | (Ok a, w') => k a w'
    | (Raise e, w') => (Raise e, w')
    end.

Definition lift {A : Type} (r : Result A) : M A := fun w => (r, w).

Notation "'let*' x ':=' m 'in' k" := (bind m (fun x => k))
  (at level 10, x name, m at level 100, k at level 200).
Notation "'do*' m 'in' k" := (bind m (fun _ => k))
  (at level 10, m at level 100, k at level 200).

(** [try: m  except Exception as e: h e]. *)
Definition try_except {A : Type} (m : M A) (h : exn -> M A) : M A :=
  fun w =>
    match m w with
    | (Ok a, w') => (Ok a, w')
    | (Raise e, w') => h e w'
    end.

(** [os.environ.get(name)] and [os.environ.get(name, default)]. *)
Definition environ_get (name : string) : M (option string) :=
  fun w => (Ok (environ w !! name), w).

Definition environ_get_default (name default : string) : M string :=
  fun w => (Ok (match environ w !! name with Some v => v | None => default end), w).

(** The world after one more request has gone out. *)
Definition after_request (rq : Request) (w : World) : World :=
  {| environ := environ w; server := server w; sent := (sent w ++ [rq])%list;
     csv_files := csv_files w; written := written w; stdout := stdout w |}.

(** [httpx.Client(...).post(...)]: the request is recorded and the peer
    answers. *)
Definition http_post (rq : Request) : M Response :=
  fun w =>
    match server w (sent w) rq with
    | NetRaise e => (Raise e, after_request rq w)
    | NetResponse r => (Ok r, after_request rq w)
    end.

(** [pd.read_csv(path)]. *)
Definition read_csv (path : string) : M DataFrame :=
  fun w =>
    match csv_files w !! path with
    | Some df => (Ok df, w)
    | None => (Raise (Exc FileNotFoundError
                        ("[Errno 2] No such file or directory: '" ++ path ++ "'")),
               w)
    end.

(** [pd.DataFrame(rows).to_csv(path, index=False)]. *)
Definition to_csv (out_rows : list JSON) (path : string) : M unit :=
  fun w =>
    (Ok tt, {| environ := environ w; server := server w; sent := sent w;
               csv_files := csv_files w;
               written := <[path := out_rows]> (written w);
               stdout := stdout w |}).

(** [print(line)]. *)
Definition print (line : string) : M unit :=
  fun w =>
    (Ok tt, {| environ := environ w; server := server w; sent := sent w;
               csv_files := csv_files w; written := written w;
               stdout := (stdout w ++ [line])%list |}).

(** The float [30.0] (binary64: 30 = 8444249301319680 * 2^-48). *)
Definition float_30 : spec_float := S754_finite false 8444249301319680 (-48).

(** ** src/data_pipeline/pii/vgs_client.py *)

Module vgs_client.

Record VGSClient : Type := {
  base : string;
  path : string;
  headers : JSON;
  timeout : spec_float
}.

(** [VGSClient.__init__(proxy_url, route_path, extra_headers, timeout)];
    [extra_headers] is [JNull] for [None]. *)
Definition __init__ (proxy_url route_path : string) (extra_headers : JSON)
    (timeout : spec_float) : VGSClient :=
  {| base := rstrip "/" proxy_url;
     path := if startswith_slash route_path then route_path
             else "/" ++ route_path;
     headers := if truthy extra_headers then extra_headers else JDict [];
     timeout := timeout |}.

Definition _endpoint (self : VGSClient) : string := base self ++ path self.

(** [{"Content-Type": "application/json", **self.headers}]. *)
Definition request_headers (self : VGSClient) : Result (list (string * JSON)) :=
  match headers self with
  | JDict d => Ok (dict_merge [("Content-Type", JStr "application/json")] d)
  | v => Raise (Exc TypeError ("'" ++ type_name v ++ "' object is not a mapping"))
  end.

Definition not_json_error (resp : Response) : exn :=
  Exc ValueError ("VGS response was not JSON: " ++ str_prefix 200 (text resp)).

Definition tokenize_json (self : VGSClient) (payload : JSON) : M JSON :=
  let* hdrs := lift (request_headers self) in
  let* resp := http_post {| req_url := _endpoint self; req_headers := hdrs;
                            req_json := payload;
                            req_timeout := timeout self |} in
  do* lift (raise_for_status resp) in
  match json resp with
  | Ok v => ret v
  | Raise e => if is_ValueError e then raise (not_json_error resp) else raise e
  end.

Definition shape_error_keyed : exn :=
  Exc ValueError "Unexpected VGS response shape for batch_key mode".

Definition shape_error_list : exn :=
  Exc ValueError "VGS response is not a list of records".

(** [batch_key in transformed] and [transformed.get(batch_key)] on a value
    already known to be a dict. *)
Definition key_in (k : string) (v : JSON) : bool :=
  match v with
  | JDict d => match dict_get k d with Some _ => true | None => false end
  | _ => false
  end.

Definition get (k : string) (v : JSON) : JSON :=
  match v with
  | JDict d => match dict_get k d with Some x => x | None => JNull end
  | _ => JNull
  end.

Definition tokenize_records (self : VGSClient) (records : list JSON)
    (batch_key : option string) : M (list JSON) :=
  let payload :=
    match truthy_key batch_key with
    | Some k => JDict [(k, JList records)]
    | None => JList records
    end in
  let* transformed := tokenize_json self payload in
  let* out :=
    match truthy_key batch_key with
    | Some k =>
        if negb (is_dict transformed) || negb (key_in k transformed)
        then raise shape_error_keyed
        else ret (get k transformed)
    | None => ret transformed
    end in
  match out with
  | JList l => ret l
  | _ => raise shape_error_list
  end.

Section FromEnv.

(** [json.loads] and [float] on strings: the value, or the text of the
    [JSONDecodeError] (of the [ValueError]) they raise. *)
Variable json_loads : string -> JSON + string.
Variable py_float : string -> spec_float + string.

Definition loads (s : string) : Result JSON :=
  match json_loads s with
  | inl v => Ok v
  | inr msg => Raise (Exc JSONDecodeError msg)
  end.

Definition float (s : string) : Result spec_float :=
  match py_float s with
  | inl f => Ok f
  | inr msg => Raise (Exc ValueError msg)
  end.

Definition url_not_set : exn := Exc RuntimeError "VGS_PROXY_URL is not set".

Definition from_env : M VGSClient :=
  let* proxy := environ_get "VGS_PROXY_URL" in
  match proxy with
  | None => raise url_not_set
  | Some proxy =>
      if String.eqb proxy "" then raise url_not_set
      else
        let* route := environ_get_default "VGS_ROUTE_PATH" "/post" in
        let* hdrs := environ_get "VGS_HEADERS_JSON" in
        let* headers :=
          match hdrs with
          | Some h => if String.eqb h "" then ret JNull else lift (loads h)
          | None => ret JNull
          end in
        let* t := environ_get_default "VGS_TIMEOUT" "30" in
        let* timeout := lift (float t) in
        ret (__init__ proxy route headers timeout)
  end.

End FromEnv.

End vgs_client.

(** ** apps/tokenization_api.py *)

Module tokenization_api.

Import vgs_client.

(** The request model: [records: List[Dict[str, Any]]],
    [batch_key: Optional[str] = None]. *)
Record TokenizeRequest : Type := {
  records : list JSON;
  batch_key : option string
}.

(** The response model: [records: List[Dict[str, Any]]]. *)
Record TokenizeResponse : Type := {
  response_records : list JSON
}.

(** [TokenizeResponse(records=out)]: pydantic accepts a list of dicts and
    raises [ValidationError] on any other element. *)
Definition new_TokenizeResponse (out : list JSON) : Result TokenizeResponse :=
  if forallb is_dict out then Ok {| response_records := out |}
  else Raise (Exc ValidationError "records: Input should be a valid dictionary").

Definition health : M JSON := ret (JDict [("status", JStr "ok")]).

Section Tokenize.

Variable json_loads : string -> JSON + string.
Variable py_float : string -> spec_float + string.

Definition tokenize (req : TokenizeRequest) : M TokenizeResponse :=
  let* client :=
    try_except (from_env json_loads py_float)
      (fun e => raise (HTTPException 500
                         ("VGS client init failed: " ++ exc_str e))) in
  let* out :=
    try_except (tokenize_records client (records req) (batch_key req))
      (fun e => raise (HTTPException 502
                         ("VGS tokenization failed: " ++ exc_str e))) in
  lift (new_TokenizeResponse out).

End Tokenize.

(** What FastAPI sends for a handler's outcome: the returned model as a 200
    JSON body, an [HTTPException] as its status with a [detail] body.  Any
    other exception leaves the handler unhandled ([None] here). *)
Definition http_reply (r : Result TokenizeResponse) : option (Z * JSON) :=
  match r with
  | Ok resp => Some (200, JDict [("records", JList (response_records resp))])
  | Raise (HTTPException code detail) =>
      Some (code, JDict [("detail", JStr detail)])
  | Raise (Exc _ _) => None
  end.

End tokenization_api.

(** ** scripts/tokenize_pii_vgs.py *)

Module tokenize_pii_vgs.

Definition post_tokenize (records : list JSON) (api_url : string)
    (batch_key : option string) (timeout : spec_float) : M JSON :=
  let payload := [("records", JList records)] in
  let payload :=
    match truthy_key batch_key with
    | Some k => dict_set "batch_key" (JStr k) payload
    | None => payload
    end in
  let* resp := http_post {| req_url := api_url; req_headers := [];
                            req_json := JDict payload;
                            req_timeout := timeout |} in
  do* lift (raise_for_status resp) in
  let* data := lift (json resp) in
  match data with
  | JDict d =>
      ret (match dict_get "records" d with Some v => v | None => JList [] end)
  | v => raise (Exc AttributeError
                  ("'" ++ type_name v ++ "' object has no attribute 'get'"))
  end.

(** The parsed command line: [--input], [--output], [--batch-size],
    [--api-url]. *)
Record Args : Type := {
  input : string;
  output : string;
  batch_size : Z;
  api_url : string
}.

Definition count_mismatch (got expected : nat) : exn :=
  Exc RuntimeError ("Tokenization API returned " ++ pretty got
                    ++ " records, expected " ++ pretty expected).

(** One turn of the [for] loop of [main], at index [i], with [out_rows] as
    accumulated so far. *)
Definition loop_body (args : Args) (df : DataFrame) (i : Z)
    (out_rows : list JSON) : M (list JSON) :=
  let chunk := iloc i (i + batch_size args) df in
  let recs := to_dict_records chunk in
  let* toks := post_tokenize recs (api_url args) None float_30 in
  let* n := lift (py_len toks) in
  if negb (Nat.eqb n (length recs))
  then raise (count_mismatch n (length recs))
  else
    let* items := lift (py_iter toks) in
    ret (out_rows ++ items)%list.

(** The [for] loop over the indices [range(0, len(df), batch_size)]. *)
Fixpoint for_each_batch (args : Args) (df : DataFrame) (indices : list Z)
    (out_rows : list JSON) : M (list JSON) :=
  match indices with
  | [] => ret out_rows
  | i :: indices' =>
      let* out_rows' := loop_body args df i out_rows in
      for_each_batch args df indices' out_rows'
  end.

Definition main (args : Args) : M Z :=
  let* df := read_csv (input args) in
  let* indices := lift (py_range 0 (df_len df) (batch_size args)) in
  let* out_rows := for_each_batch args df indices [] in
  do* to_csv out_rows (output args) in
  do* print ("Tokenized " ++ pretty (length out_rows) ++ " rows -> "
             ++ output args) in
  ret 0.

End tokenize_pii_vgs.

(** ** Sample worlds

    Concrete environments, peers and data sets on which the statements below
    are evaluated. *)

Module samples.

Import vgs_client tokenization_api tokenize_pii_vgs.

(** [json.loads] and [float] on the strings the samples pass them, with the
    answers CPython gives: ["{}"] decodes to the empty dict, ["30"] is the
    float 30.0, and ["abc"] is no float.  Strings the samples never pass are
    answered as rejected. *)
Definition sample_json_loads (s : string) : JSON + string :=
  if String.eqb s "{}" then inl (JDict [])
  else inr "Expecting value: line 1 column 1 (char 0)".

Definition sample_float (s : string) : spec_float + string :=
  if String.eqb s "30" then inl float_30
  else inr ("could not convert string to float: '" ++ s ++ "'").

Definition world_of (env : list (string * string))
    (srv : list Request -> Request -> NetOutcome) : World :=
  {| environ := list_to_map env; server := srv; sent := [];
     csv_files := ∅; written := ∅; stdout := [] |}.

Definition proxy_url : string := "https://tnt.sandbox.verygoodproxy.com".

Definition client : VGSClient := __init__ proxy_url "/post" JNull float_30.

(** A peer that sends back, as JSON, the value it was sent. *)
Definition echo (_ : list Request) (rq : Request) : NetOutcome :=
  NetResponse {| status_code := 200; text := "(the request body)";
                 json := Ok (req_json rq); status_error := "" |}.

(** A gateway that answers every request with an HTML error page. *)
Definition bad_gateway_page : Response :=
  {| status_code := 502; text := "<html>Bad Gateway</html>";
     json := Raise (Exc JSONDecodeError
                      "Expecting value: line 1 column 1 (char 0)");
     status_error := "Server error '502 Bad Gateway'" |}.

Definition bad_gateway (_ : list Request) (_ : Request) : NetOutcome :=
  NetResponse bad_gateway_page.

(** A peer that answers 200 with a body that is not JSON. *)
Definition plain_text_page : Response :=
  {| status_code := 200; text := "pong";
     json := Raise (Exc JSONDecodeError
                      "Expecting value: line 1 column 1 (char 0)");
     status_error := "" |}.

Definition plain_text (_ : list Request) (_ : Request) : NetOutcome :=
  NetResponse plain_text_page.

(** A peer that cannot be reached. *)
Definition unreachable (_ : list Request) (_ : Request) : NetOutcome :=
  NetRaise (Exc HTTPError "All connection attempts failed").

Definition alice : JSON := JDict [("name", JStr "Alice")].

(** A cleaned data set of five rows, and a command line cutting it by two. *)
Definition people : DataFrame :=
  {| columns := ["name"; "card"];
     rows := [[JStr "Ann"; JStr "4111-0001"];
              [JStr "Bob"; JStr "4111-0002"];
              [JStr "Cyd"; JStr "4111-0003"];
              [JStr "Dee"; JStr "4111-0004"];
              [JStr "Eli"; JStr "4111-0005"]] |}.

Definition sample_args : Args :=
  {| input := "clean.csv"; output := "tokenized.csv"; batch_size := 2;
     api_url := "http://127.0.0.1:8080/tokenize" |}.

Definition driver_world (srv : list Request -> Request -> NetOutcome) : World :=
  {| environ := ∅; server := srv; sent := [];
     csv_files := {[ "clean.csv" := people ]}; written := ∅; stdout := [] |}.

(** An API that answers every request with a single record. *)
Definition one_record : Response :=
  {| status_code := 200; text := "(one record)";
     json := Ok (JDict [("records", JList [alice])]); status_error := "" |}.

(** An API that answers its first request as [echo] does and every later one
    with a single record. *)
Definition short_after_first (history : list Request) (rq : Request)
  : NetOutcome :=
  match history with
  | [] => echo history rq
  | _ => NetResponse one_record
  end.

(** The facade's own reply when the proxy cannot be reached. *)
Definition upstream_failed : Response :=
  {| status_code := 502; text := "(a detail object)";
     json := Ok (JDict [("detail",
                         JStr "VGS tokenization failed: All connection attempts failed")]);
     status_error := "Server error '502 Bad Gateway'" |}.

Definition failing_api (_ : list Request) (_ : Request) : NetOutcome :=
  NetResponse upstream_failed.

(** A peer that answers 200 with a bare JSON list. *)
Definition bare_list : Response :=
  {| status_code := 200; text := "(a list)";
     json := Ok (JList [alice]); status_error := "" |}.

Definition bare_list_api (_ : list Request) (_ : Request) : NetOutcome :=
  NetResponse bare_list.

(** A peer that answers every request as the health check does. *)
Definition status_ok : Response :=
  {| status_code := 200; text := "(a status object)";
     json := Ok (JDict [("status", JStr "ok")]); status_error := "" |}.

Definition health_only (_ : list Request) (_ : Request) : NetOutcome :=
  NetResponse status_ok.

End samples.

(** Further sample worlds. *)

Module more_samples.

Import vgs_client tokenization_api tokenize_pii_vgs samples.

(** [json.loads] on the strings these samples pass it: ["[1]"] is a list,
    ["null"] is [None], and a dict of one header. *)
Definition headers_text : string := "(one Authorization header, as JSON)".

Definition bearer : list (string * JSON) := [("Authorization", JStr "Bearer t")].

Definition sample_json_loads' (s : string) : JSON + string :=
  if String.eqb s "[1]" then inl (JList [JInt 1])
  else if String.eqb s "null" then inl JNull
  else if String.eqb s headers_text then inl (JDict bearer)
  else inr "Expecting value: line 1 column 1 (char 0)".

Definition client_with_headers : VGSClient :=
  __init__ (proxy_url ++ "//") "tokenize" (JDict bearer) float_30.

Definition client_with_list_headers : VGSClient :=
  __init__ proxy_url "/post" (JList [JInt 1]) float_30.

(** An API that answers with a dict, a string, or nothing under "records". *)
Definition records_of (v : JSON) (_ : list Request) (_ : Request) : NetOutcome :=
  NetResponse {| status_code := 200; text := "(a records object)";
                 json := Ok (JDict [("records", v)]); status_error := "" |}.

(** A proxy that answers 200 with the JSON list [[1]]. *)
Definition list_of_one : Response :=
  {| status_code := 200; text := "[1]";
     json := Ok (JList [JInt 1]); status_error := "" |}.

Definition numbers_proxy (_ : list Request) (_ : Request) : NetOutcome :=
  NetResponse list_of_one.

Definition args_with_size (size : Z) : Args :=
  {| input := "clean.csv"; output := "tokenized.csv"; batch_size := size;
     api_url := "http://127.0.0.1:8080/tokenize" |}.

End more_samples.

(** * Properties *)

(** The specification's names for the errors the code raises. *)

(** [ConfigError], a missing or malformed configuration: the error of the
    missing URL, the error [json.loads] raises on a string, or the error
    [float] raises on a string. *)
Definition ConfigError (json_loads : string -> JSON + string)
    (py_float : string -> spec_float + string) (e : exn) : Prop :=
  e = vgs_client.url_not_set \/
  (exists h msg, json_loads h = inr msg /\ e = Exc JSONDecodeError msg) \/
  (exists t msg, py_float t = inr msg /\ e = Exc ValueError msg).

Definition DecodeError (e : exn) : Prop :=
  exists body, e = Exc ValueError ("VGS response was not JSON: " ++ body).

Definition ShapeError (e : exn) : Prop :=
  e = vgs_client.shape_error_keyed \/ e = vgs_client.shape_error_list.

Definition CountMismatchError (e : exn) : Prop :=
  exists got expected, e = tokenize_pii_vgs.count_mismatch got expected.

(** ** Vocabulary of the statements *)

Section Vocabulary.

Import vgs_client tokenize_pii_vgs.

(** The one request [tokenize_json] issues for a payload. *)
Definition proxy_request (self : VGSClient) (hdrs : list (string * JSON))
    (payload : JSON) : Request :=
  {| req_url := _endpoint self; req_headers := hdrs; req_json := payload;
     req_timeout := timeout self |}.

(** What [tokenize_json] makes of the peer's answer. *)
Definition decoded (o : NetOutcome) : Result JSON :=
  match o with
  | NetRaise e => Raise e
  | NetResponse r =>
      if is_success r then
        match json r with
        | Ok v => Ok v
        | Raise e => if is_ValueError e then Raise (not_json_error r) else Raise e
        end
      else Raise (Exc HTTPStatusError (status_error r))
  end.

Variable json_loads : string -> JSON + string.
Variable py_float : string -> spec_float + string.

(** [VGS_PROXY_URL] is absent or empty. *)
Definition url_missing (w : World) : Prop :=
  environ w !! "VGS_PROXY_URL" = None \/ environ w !! "VGS_PROXY_URL" = Some "".

(** [VGS_HEADERS_JSON] is set, non-empty, and not valid JSON. *)
Definition headers_malformed (w : World) : Prop :=
  exists h msg, environ w !! "VGS_HEADERS_JSON" = Some h /\ h <> "" /\
                json_loads h = inr msg.

(** [VGS_TIMEOUT] (or ["30"] in its absence) is not a float literal. *)
Definition timeout_malformed (w : World) : Prop :=
  exists msg,
    py_float (match environ w !! "VGS_TIMEOUT" with Some t => t | None => "30" end)
    = inr msg.

(** The headers and the timeout [from_env] reads. *)
Definition env_headers (w : World) : Result JSON :=
  match environ w !! "VGS_HEADERS_JSON" with
  | Some h => if String.eqb h "" then Ok JNull else loads json_loads h
  | None => Ok JNull
  end.

Definition env_timeout (w : World) : Result spec_float :=
  float py_float
    (match environ w !! "VGS_TIMEOUT" with Some t => t | None => "30" end).

Definition env_route (w : World) : string :=
  match environ w !! "VGS_ROUTE_PATH" with Some p => p | None => "/post" end.

(** The request [main] has [post_tokenize] issue for a batch. *)
Definition api_request (url : string) (records : list JSON) : Request :=
  {| req_url := url; req_headers := [];
     req_json := JDict [("records", JList records)];
     req_timeout := float_30 |}.

(** The batch [main] cuts at index [i], and all its batches in order. *)
Definition batch_at (df : DataFrame) (size i : Z) : list JSON :=
  to_dict_records (iloc i (i + size) df).

Definition batches (df : DataFrame) (size : Z) : list (list JSON) :=
  match py_range 0 (df_len df) size with
  | Ok indices => map (batch_at df size) indices
  | Raise _ => []
  end.

(** What [post_tokenize] makes of the API's answer. *)
Definition api_decoded (o : NetOutcome) : Result JSON :=
  match o with
  | NetRaise e => Raise e
  | NetResponse r =>
      if is_success r then
        match json r with
        | Ok (JDict d) =>
            Ok (match dict_get "records" d with
                | Some v => v
                | None => JList []
                end)
        | Ok v => Raise (Exc AttributeError
                           ("'" ++ type_name v ++ "' object has no attribute 'get'"))
        | Raise e => Raise e
        end
      else Raise (Exc HTTPStatusError (status_error r))
  end.

(** What one turn of the loop makes of the value [post_tokenize] returned. *)
Definition checked (recs : list JSON) (out_rows : list JSON) (toks : JSON)
  : Result (list JSON) :=
  match py_len toks with
  | Raise e => Raise e
  | Ok n =>
      if Nat.eqb n (length recs)
      then match py_iter toks with
           | Ok items => Ok (out_rows ++ items)%list
           | Raise e => Raise e
           end
      else Raise (count_mismatch n (length recs))
  end.

(** The number of indices [range(0, n, size)] yields. *)
Definition range_count (n size : Z) : Z :=
  if 0 <? n then (n - 0 - 1) / size + 1 else 0.

(** A row as the dict [to_dict] makes of it. *)
Definition row_dict (df : DataFrame) (row : list JSON) : JSON :=
  JDict (combine (columns df) row).

(** The answers a peer gives to requests sent one after the other, the first
    of them after [history]. *)
Fixpoint replay (srv : list Request -> Request -> NetOutcome)
    (history : list Request) (reqs : list Request) : list NetOutcome :=
  match reqs with
  | [] => []
  | rq :: rest => srv history rq :: replay srv (history ++ [rq])%list rest
  end.

(** The peer answered with a success status and a JSON object holding the
    record list [a] under "records". *)
Definition answers_with (o : NetOutcome) (a : list JSON) : Prop :=
  exists r d, o = NetResponse r /\ is_success r = true /\
              json r = Ok (JDict d) /\ dict_get "records" d = Some (JList a).

(** [s.endswith(c)] for a single character [c], and the string of [n]
    slashes. *)
Fixpoint ends_with (c : ascii) (s : string) : bool :=
  match s with
  | EmptyString => false
  | String a EmptyString => Ascii.eqb a c
  | String _ s' => ends_with c s'
  end.

Fixpoint slashes (n : nat) : string :=
  match n with
  | O => EmptyString
  | S n' => String "/" (slashes n')
  end.

(** The payload [tokenize_records] wraps [records] in, by [batch_key]. *)
Definition wrapped (records : list JSON) (batch_key : option string) : JSON :=
  match batch_key with
  | Some k => if String.eqb k "" then JList records
              else JDict [(k, JList records)]
  | None => JList records
  end.

(** The request [post_tokenize] issues, by [batch_key]. *)
Definition api_request_keyed (url : string) (records : list JSON)
    (batch_key : option string) (timeout : spec_float) : Request :=
  {| req_url := url; req_headers := [];
     req_json :=
       JDict (match batch_key with
              | Some k => if String.eqb k "" then [("records", JList records)]
                          else [("records", JList records);
                                ("batch_key", JStr k)]
              | None => [("records", JList records)]
              end);
     req_timeout := timeout |}.

End Vocabulary.

(** ** Strings *)

Lemma append_cons (c : ascii) (s t : string) :
  String c s ++ t = String c (s ++ t).
Proof. reflexivity. Qed.

Lemma append_empty_l (t : string) : "" ++ t = t.
Proof. reflexivity. Qed.

Lemma append_empty_r (s : string) : s ++ "" = s.
Proof.
  induction s as [|c s IH]; [reflexivity|].
  rewrite append_cons, IH. reflexivity.
Qed.

Lemma str_prefix_app (n : nat) (s : string) :
  exists rest, s = str_prefix n s ++ rest.
Proof.
  unfold str_prefix. revert n.
  induction s as [|c s IH]; intros [|n]; simpl.
  - exists "". reflexivity.
  - exists "". reflexivity.
  - exists (String c s). reflexivity.
  - destruct (IH n) as [rest Hrest]. exists rest.
    rewrite append_cons, <- Hrest. reflexivity.
Qed.

Lemma str_prefix_length (n : nat) (s : string) :
  String.length (str_prefix n s) = Nat.min n (String.length s).
Proof.
  unfold str_prefix. revert n.
  induction s as [|c s IH]; intros [|n]; simpl; auto.
Qed.

Lemma contains_suffix (pre t : string) : contains (pre ++ t) t.
Proof. exists pre, "". rewrite append_empty_r. reflexivity. Qed.

Lemma eqb_empty (k : string) : k <> "" -> String.eqb k "" = false.
Proof. intros H. apply String.eqb_neq. exact H. Qed.

(** ** The proxy client *)

Section Client.

Import vgs_client.

Lemma tokenize_json_run self payload w hdrs :
  request_headers self = Ok hdrs ->
  tokenize_json self payload w =
    (decoded (server w (sent w) (proxy_request self hdrs payload)),
     after_request (proxy_request self hdrs payload) w).
Proof.
  intros Hh. unfold tokenize_json, bind, lift, http_post, decoded.
  rewrite Hh. fold (proxy_request self hdrs payload).
  destruct (server w (sent w) (proxy_request self hdrs payload)) as [e|r];
    [reflexivity|].
  unfold raise_for_status. destruct (is_success r); [|reflexivity].
  destruct (json r) as [v|e]; [reflexivity|].
  destruct (is_ValueError e); reflexivity.
Qed.

Lemma tokenize_json_bad_headers self payload w e :
  request_headers self = Raise e ->
  tokenize_json self payload w = (Raise e, w).
Proof.
  intros Hh. unfold tokenize_json, bind, lift. rewrite Hh. reflexivity.
Qed.

(** The payload [tokenize_records] wraps its records in. *)
Lemma tokenize_records_bare self records w :
  tokenize_records self records None w =
    match tokenize_json self (JList records) w with
    | (Ok (JList l), w') => (Ok l, w')
    | (Ok _, w') => (Raise shape_error_list, w')
    | (Raise e, w') => (Raise e, w')
    end.
Proof.
  unfold tokenize_records, bind. simpl.
  destruct (tokenize_json self (JList records) w) as [[t|e] w']; [|reflexivity].
  destruct t; reflexivity.
Qed.

Lemma tokenize_records_keyed self records k w :
  k <> "" ->
  tokenize_records self records (Some k) w =
    match tokenize_json self (JDict [(k, JList records)]) w with
    | (Ok (JDict d), w') =>
        match dict_get k d with
        | Some (JList l) => (Ok l, w')
        | Some _ => (Raise shape_error_list, w')
        | None => (Raise shape_error_keyed, w')
        end
    | (Ok _, w') => (Raise shape_error_keyed, w')
    | (Raise e, w') => (Raise e, w')
    end.
Proof.
  intros Hk. unfold tokenize_records, bind. simpl.
  rewrite (eqb_empty k Hk).
  destruct (tokenize_json self (JDict [(k, JList records)]) w) as [[t|e] w'];
    [|reflexivity].
  destruct t; try reflexivity. simpl.
  destruct (dict_get k fields) as [v|]; [|reflexivity].
  destruct v; reflexivity.
Qed.

(** C1 (amended).  For every record sequence, on a client whose extra headers
    are a mapping (as their type says): with a non-empty [batch_key]
    the one request sent carries [{batch_key: records}], and the call fails
    with [ShapeError] unless the decoded response is a mapping containing that
    key, whose value it takes; with [batch_key] absent or empty the request
    carries the bare sequence and the decoded response itself is taken.  In
    both cases the call fails with [ShapeError] if the value taken is not a
    sequence and otherwise returns that sequence, of whatever length. *)
Theorem tokenize_records_shape self records w hdrs :
  request_headers self = Ok hdrs ->
  (forall k, k <> "" ->
     let rq := proxy_request self hdrs (JDict [(k, JList records)]) in
     snd (tokenize_records self records (Some k) w) = after_request rq w /\
     forall r t,
       server w (sent w) rq = NetResponse r ->
       is_success r = true -> json r = Ok t ->
       match t with
       | JDict d =>
           match dict_get k d with
           | Some (JList l) =>
               fst (tokenize_records self records (Some k) w) = Ok l
           | Some _ | None =>
               exists e, fst (tokenize_records self records (Some k) w) = Raise e
                         /\ ShapeError e
           end
       | _ => exists e, fst (tokenize_records self records (Some k) w) = Raise e
                        /\ ShapeError e
       end) /\
  (forall batch_key, batch_key = None \/ batch_key = Some "" ->
     let rq := proxy_request self hdrs (JList records) in
     snd (tokenize_records self records batch_key w) = after_request rq w /\
     forall r t,
       server w (sent w) rq = NetResponse r ->
       is_success r = true -> json r = Ok t ->
       match t with
       | JList l => fst (tokenize_records self records batch_key w) = Ok l
       | _ => exists e, fst (tokenize_records self records batch_key w) = Raise e
                        /\ ShapeError e
       end).
Proof.
  intros Hh. split.
  - intros k Hk rq.
    rewrite (tokenize_records_keyed self records k w Hk).
    rewrite (tokenize_json_run self _ w hdrs Hh). fold rq.
    split.
    + destruct (decoded (server w (sent w) rq)) as [t|e]; [|reflexivity].
      destruct t; try reflexivity.
      destruct (dict_get k fields) as [v|]; [|reflexivity].
      destruct v; reflexivity.
    + intros r t Hr Hs Hj. rewrite Hr. unfold decoded. rewrite Hs, Hj.
      destruct t; try (eexists; split; [reflexivity|left; reflexivity]).
      destruct (dict_get k fields) as [v|];
        [|eexists; split; [reflexivity|left; reflexivity]].
      destruct v; try (eexists; split; [reflexivity|right; reflexivity]).
      reflexivity.
  - intros batch_key Hb rq.
    assert (Hnone : tokenize_records self records batch_key w =
                    tokenize_records self records None w)
      by (destruct Hb as [->| ->]; reflexivity).
    rewrite Hnone, tokenize_records_bare.
    rewrite (tokenize_json_run self _ w hdrs Hh). fold rq.
    split.
    + destruct (decoded (server w (sent w) rq)) as [t|e]; [|reflexivity].
      destruct t; reflexivity.
    + intros r t Hr Hs Hj. rewrite Hr. unfold decoded. rewrite Hs, Hj.
      destruct t; try (eexists; split; [reflexivity|right; reflexivity]).
      reflexivity.
Qed.

(** C6 (amended).  For every response with a success status whose body is not
    valid JSON ([resp.json()] raises a [ValueError]), [tokenize_json] fails
    with a [DecodeError] whose message ends with the first 200 characters of
    the raw body (all of it when it is shorter). *)
Theorem tokenize_json_not_json self payload w hdrs r e :
  request_headers self = Ok hdrs ->
  server w (sent w) (proxy_request self hdrs payload) = NetResponse r ->
  is_success r = true ->
  json r = Raise e -> is_ValueError e = true ->
  exists err first200 rest,
    fst (tokenize_json self payload w) = Raise err /\
    DecodeError err /\
    contains (exc_str err) first200 /\
    text r = first200 ++ rest /\
    String.length first200 = Nat.min 200 (String.length (text r)).
Proof.
  intros Hh Hr Hs Hj He.
  destruct (str_prefix_app 200 (text r)) as [rest Hrest].
  exists (not_json_error r), (str_prefix 200 (text r)), rest.
  rewrite (tokenize_json_run self payload w hdrs Hh), Hr.
  unfold decoded. rewrite Hs, Hj, He. simpl.
  split; [reflexivity|]. split; [eexists; reflexivity|].
  split; [apply contains_suffix|].
  split; [exact Hrest|apply str_prefix_length].
Qed.

(** C8.  Against an upstream that echoes its input, [tokenize_records]
    returns the records it was given, so [tokenize_records([], None)] returns
    [[]]; and for any record sequence and any decoded answer of the upstream
    it returns [out] exactly when [out] is the sequence the upstream produced
    (the answer itself, or its value at a non-empty [batch_key]): nothing is
    transformed locally. *)
Theorem tokenize_records_passthrough self records batch_key w hdrs r t :
  request_headers self = Ok hdrs ->
  let payload :=
    match batch_key with
    | Some k => if String.eqb k "" then JList records
                else JDict [(k, JList records)]
    | None => JList records
    end in
  server w (sent w) (proxy_request self hdrs payload) = NetResponse r ->
  is_success r = true -> json r = Ok t ->
  (t = payload -> fst (tokenize_records self records batch_key w) = Ok records) /\
  (t = payload -> records = [] -> batch_key = None ->
   fst (tokenize_records self [] None w) = Ok []) /\
  (forall out,
     fst (tokenize_records self records batch_key w) = Ok out <->
     match batch_key with
     | Some k => if String.eqb k "" then t = JList out
                 else exists d, t = JDict d /\ dict_get k d = Some (JList out)
     | None => t = JList out
     end).
Proof.
  intros Hh payload Hr Hs Hj.
  assert (Hdec : decoded (server w (sent w) (proxy_request self hdrs payload))
                 = Ok t) by (rewrite Hr; unfold decoded; rewrite Hs, Hj; reflexivity).
  assert (Hiff : forall out,
     fst (tokenize_records self records batch_key w) = Ok out <->
     match batch_key with
     | Some k => if String.eqb k "" then t = JList out
                 else exists d, t = JDict d /\ dict_get k d = Some (JList out)
     | None => t = JList out
     end).
  { intros out. subst payload. destruct batch_key as [k|].
    - destruct (String.eqb k "") eqn:Hk.
      + apply String.eqb_eq in Hk. subst k.
        change (tokenize_records self records (Some "") w)
          with (tokenize_records self records None w).
        rewrite tokenize_records_bare, (tokenize_json_run self _ w hdrs Hh), Hdec.
        destruct t; simpl; split; intros H; try discriminate; congruence.
      + apply String.eqb_neq in Hk.
        rewrite (tokenize_records_keyed self records k w Hk).
        rewrite (tokenize_json_run self _ w hdrs Hh), Hdec.
        destruct t; simpl;
          try (split; [discriminate|intros (d & Hd & _); discriminate]).
        destruct (dict_get k fields) as [v|] eqn:Hg.
        * destruct v; simpl;
            try (split; [discriminate
                        |intros (d & Hd & Hv); injection Hd as <-; congruence]).
          split.
          -- intros H. injection H as <-. exists fields. split; [reflexivity|exact Hg].
          -- intros (d & Hd & Hv). injection Hd as <-. congruence.
        * simpl. split; [discriminate|].
          intros (d & Hd & Hv). injection Hd as <-. congruence.
    - rewrite tokenize_records_bare, (tokenize_json_run self _ w hdrs Hh), Hdec.
      destruct t; simpl; split; intros H; try discriminate; congruence. }
  assert (Hecho : t = payload ->
                  fst (tokenize_records self records batch_key w) = Ok records).
  { intros Ht. apply Hiff. subst payload. destruct batch_key as [k|]; [|exact Ht].
    destruct (String.eqb k "") eqn:Hk; [exact Ht|].
    eexists. split; [exact Ht|]. simpl. rewrite String.eqb_refl. reflexivity. }
  split; [exact Hecho|]. split; [|exact Hiff].
  intros Ht -> ->. apply Hecho. exact Ht.
Qed.

(** C9.  For every record sequence, [tokenize_records] called with
    [batch_key=""] behaves as with [batch_key=None], in its result and in the
    request it sends: the keyed path is chosen by the truth value of
    [batch_key], not by its presence. *)
Theorem tokenize_records_empty_key self records w :
  tokenize_records self records (Some "") w =
    tokenize_records self records None w /\
  forall hdrs, request_headers self = Ok hdrs ->
    snd (tokenize_records self records (Some "") w) =
      after_request (proxy_request self hdrs (JList records)) w.
Proof.
  split; [reflexivity|].
  intros hdrs Hh.
  change (tokenize_records self records (Some "") w)
    with (tokenize_records self records None w).
  rewrite tokenize_records_bare, (tokenize_json_run self _ w hdrs Hh).
  destruct (decoded _) as [t|e]; [|reflexivity].
  destruct t; reflexivity.
Qed.

End Client.

(** ** Construction from the environment *)

Section FromEnv.

Import vgs_client.

Variable json_loads : string -> JSON + string.
Variable py_float : string -> spec_float + string.

Local Abbreviation headers_malformed := (headers_malformed json_loads).
Local Abbreviation timeout_malformed := (timeout_malformed py_float).
Local Abbreviation env_headers := (env_headers json_loads).
Local Abbreviation env_timeout := (env_timeout py_float).

Lemma from_env_run w :
  from_env json_loads py_float w =
    (match environ w !! "VGS_PROXY_URL" with
     | None => Raise url_not_set
     | Some proxy =>
         if String.eqb proxy "" then Raise url_not_set
         else match env_headers w with
              | Raise e => Raise e
              | Ok hdrs =>
                  match env_timeout w with
                  | Raise e => Raise e
                  | Ok t => Ok (__init__ proxy (env_route w) hdrs t)
                  end
              end
     end, w).
Proof.
  unfold from_env, bind, environ_get, environ_get_default, env_headers,
    env_timeout, env_route, lift, ret, raise.
  destruct (environ w !! "VGS_PROXY_URL") as [proxy|]; [|reflexivity].
  destruct (String.eqb proxy ""); [reflexivity|].
  destruct (environ w !! "VGS_HEADERS_JSON") as [h|].
  - destruct (String.eqb h "").
    + destruct (float py_float _); reflexivity.
    + destruct (loads json_loads h); [|reflexivity].
      destruct (float py_float _); reflexivity.
  - destruct (float py_float _); reflexivity.
Qed.

Lemma env_headers_fails w :
  (exists e, env_headers w = Raise e) <-> headers_malformed w.
Proof.
  unfold env_headers, headers_malformed, loads. split.
  - intros [e He].
    destruct (environ w !! "VGS_HEADERS_JSON") as [h|]; [|discriminate].
    destruct (String.eqb h "") eqn:Hh; [discriminate|].
    apply String.eqb_neq in Hh.
    destruct (json_loads h) as [v|msg] eqn:Hj; [discriminate|].
    exists h, msg. auto.
  - intros (h & msg & -> & Hh & Hj).
    rewrite (eqb_empty h Hh), Hj. eexists. reflexivity.
Qed.

Lemma env_timeout_fails w :
  (exists e, env_timeout w = Raise e) <-> timeout_malformed w.
Proof.
  unfold env_timeout, timeout_malformed, float. split.
  - intros [e He]. destruct (py_float _) as [f|msg]; [discriminate|].
    exists msg. reflexivity.
  - intros [msg ->]. eexists. reflexivity.
Qed.

Lemma init_path_slash proxy route hdrs t :
  startswith_slash (path (__init__ proxy route hdrs t)) = true.
Proof.
  unfold __init__. simpl.
  destruct (startswith_slash route) eqn:Hr; [exact Hr|reflexivity].
Qed.

(** The string [float] is applied to: [VGS_TIMEOUT], or "30". *)
Local Abbreviation timeout_text w :=
  (match environ w !! "VGS_TIMEOUT" with Some t => t | None => "30" end).

(** The four ways [from_env] can end. *)
Lemma from_env_cases w :
  let r := fst (from_env json_loads py_float w) in
  (url_missing w /\ r = Raise url_not_set) \/
  (exists proxy,
     environ w !! "VGS_PROXY_URL" = Some proxy /\ proxy <> "" /\
     ((exists h msg,
         environ w !! "VGS_HEADERS_JSON" = Some h /\ h <> "" /\
         json_loads h = inr msg /\ r = Raise (Exc JSONDecodeError msg)) \/
      (exists hv,
         env_headers w = Ok hv /\
         ((exists msg, py_float (timeout_text w) = inr msg /\
                       r = Raise (Exc ValueError msg)) \/
          (exists t, py_float (timeout_text w) = inl t /\
                     r = Ok (__init__ proxy (env_route w) hv t)))))).
Proof.
  intros r. subst r. rewrite from_env_run. simpl. unfold url_missing.
  destruct (environ w !! "VGS_PROXY_URL") as [proxy|]; [|left; auto].
  destruct (String.eqb proxy "") eqn:Hpe.
  { apply String.eqb_eq in Hpe. subst proxy. left. auto. }
  apply String.eqb_neq in Hpe. right. exists proxy.
  split; [reflexivity|]. split; [exact Hpe|].
  destruct (env_headers w) as [hv|eh] eqn:Hh.
  - right. exists hv. split; [reflexivity|].
    unfold env_timeout, float.
    destruct (py_float (timeout_text w)) as [t|msg].
    + right. exists t. auto.
    + left. exists msg. auto.
  - left. unfold env_headers, loads in Hh.
    destruct (environ w !! "VGS_HEADERS_JSON") as [h|]; [|discriminate].
    destruct (String.eqb h "") eqn:Hhe; [discriminate|].
    apply String.eqb_neq in Hhe.
    destruct (json_loads h) as [v|msg] eqn:Hj; [discriminate|].
    injection Hh as <-. exists h, msg. auto.
Qed.

Lemma env_headers_value w hv :
  env_headers w = Ok hv ->
  match environ w !! "VGS_HEADERS_JSON" with
  | Some h => if String.eqb h "" then hv = JNull else json_loads h = inl hv
  | None => hv = JNull
  end.
Proof.
  unfold env_headers, loads.
  destruct (environ w !! "VGS_HEADERS_JSON") as [h|];
    [|intros H; injection H as <-; reflexivity].
  destruct (String.eqb h ""); [intros H; injection H as <-; reflexivity|].
  destruct (json_loads h); [intros H; injection H as <-; reflexivity|discriminate].
Qed.

(** C5 (amended).  Construction from the environment leaves the world as it
    is.  It fails, always with a [ConfigError], exactly when [VGS_PROXY_URL]
    is absent or empty (the error "VGS_PROXY_URL is not set", raised in that
    case and in no other), or [VGS_HEADERS_JSON] is non-empty and malformed
    (the decoder's [JSONDecodeError]), or the timeout text is not a float
    literal (the [ValueError] of [float]).  Otherwise it yields the
    configuration read from the environment: the base is the URL without its
    trailing slashes; the route path is [VGS_ROUTE_PATH], "/post" by default,
    with a "/" put in front unless it starts with one; the headers are the
    decoded [VGS_HEADERS_JSON], empty by default; the timeout is
    [float(VGS_TIMEOUT)], 30 seconds by default. *)
Theorem from_env_spec w :
  py_float "30" = inl float_30 ->
  let r := fst (from_env json_loads py_float w) in
  snd (from_env json_loads py_float w) = w /\
  ((exists e, r = Raise e /\ ConfigError json_loads py_float e) <->
   url_missing w \/ headers_malformed w \/ timeout_malformed w) /\
  (forall e, r = Raise e -> ConfigError json_loads py_float e) /\
  (r = Raise url_not_set <-> url_missing w) /\
  (~ url_missing w ->
   forall h msg,
     environ w !! "VGS_HEADERS_JSON" = Some h -> h <> "" ->
     json_loads h = inr msg ->
     r = Raise (Exc JSONDecodeError msg)) /\
  (~ url_missing w -> ~ headers_malformed w ->
   forall msg,
     py_float (timeout_text w) = inr msg ->
     r = Raise (Exc ValueError msg)) /\
  (forall cfg, r = Ok cfg ->
     (exists proxy,
        environ w !! "VGS_PROXY_URL" = Some proxy /\ proxy <> "" /\
        base cfg = rstrip "/" proxy) /\
     path cfg = (if startswith_slash (env_route w) then env_route w
                 else "/" ++ env_route w) /\
     startswith_slash (path cfg) = true /\
     (environ w !! "VGS_ROUTE_PATH" = None -> path cfg = "/post") /\
     match environ w !! "VGS_HEADERS_JSON" with
     | Some h =>
         if String.eqb h "" then headers cfg = JDict []
         else exists v, json_loads h = inl v /\
                        headers cfg = (if truthy v then v else JDict [])
     | None => headers cfg = JDict []
     end /\
     py_float (timeout_text w) = inl (timeout cfg) /\
     (environ w !! "VGS_TIMEOUT" = None -> timeout cfg = float_30)).
Proof.
  intros H30 r.
  split; [rewrite from_env_run; reflexivity|].
  pose proof (env_headers_fails w) as Hhf.
  destruct (from_env_cases w) as
    [[Hmiss Hr]
    |(proxy & Hp & Hpe &
      [(h & msg & Hh & Hhe & Hj & Hr)
      |(hv & Hhv & [(msg & Ht & Hr)|(t & Ht & Hr)])])];
    fold r in Hr; rewrite Hr; clear Hr.
  - (* the URL is missing *)
    split; [split; [intros _; left; exact Hmiss
                   |intros _; eexists; split; [reflexivity|left; reflexivity]]|].
    split; [intros e He; injection He as <-; left; reflexivity|].
    split; [split; [intros _; exact Hmiss|reflexivity]|].
    split; [intros Hn; contradiction|].
    split; [intros Hn; contradiction|discriminate].
  - (* the headers are malformed *)
    assert (Hnm : ~ url_missing w).
    { unfold url_missing. rewrite Hp. intros [H|H]; [discriminate|].
      injection H as ->. apply Hpe. reflexivity. }
    assert (Hm : headers_malformed w) by (exists h, msg; auto).
    split; [split; [intros _; right; left; exact Hm
                   |intros _; eexists; split; [reflexivity|];
                    right; left; exists h, msg; auto]|].
    split; [intros e He; injection He as <-; right; left; exists h, msg; auto|].
    split; [split; [discriminate|intros Hu; contradiction]|].
    split.
    { intros _ h' msg' Hh' _ Hj'. rewrite Hh in Hh'. injection Hh' as <-.
      rewrite Hj in Hj'. injection Hj' as <-. reflexivity. }
    split; [intros _ Hn; contradiction|discriminate].
  - (* the timeout is malformed *)
    assert (Hnm : ~ url_missing w).
    { unfold url_missing. rewrite Hp. intros [H|H]; [discriminate|].
      injection H as ->. apply Hpe. reflexivity. }
    assert (Hnh : ~ headers_malformed w).
    { intros Hm. apply Hhf in Hm. destruct Hm as [e He].
      rewrite Hhv in He. discriminate. }
    split; [split; [intros _; right; right; exists msg; exact Ht
                   |intros _; eexists; split; [reflexivity|];
                    right; right; eexists; exists msg; eauto]|].
    split; [intros e He; injection He as <-; right; right;
            eexists; exists msg; eauto|].
    split; [split; [discriminate|intros Hu; contradiction]|].
    split.
    { intros _ h msg' Hh Hhe Hj. exfalso. apply Hnh. exists h, msg'. auto. }
    split; [|discriminate].
    intros _ _ msg' Ht'. rewrite Ht in Ht'. injection Ht' as <-. reflexivity.
  - (* a configuration comes out *)
    assert (Hnm : ~ url_missing w).
    { unfold url_missing. rewrite Hp. intros [H|H]; [discriminate|].
      injection H as ->. apply Hpe. reflexivity. }
    assert (Hnh : ~ headers_malformed w).
    { intros Hm. apply Hhf in Hm. destruct Hm as [e He].
      rewrite Hhv in He. discriminate. }
    assert (Hnt : ~ timeout_malformed w).
    { intros [msg Hmsg]. rewrite Ht in Hmsg. discriminate. }
    split; [split; [intros (e & He & _); discriminate|tauto]|].
    split; [discriminate|].
    split; [split; [discriminate|intros Hu; contradiction]|].
    split.
    { intros _ h msg Hh Hhe Hj. exfalso. apply Hnh. exists h, msg. auto. }
    split.
    { intros _ _ msg Hmsg. rewrite Ht in Hmsg. discriminate. }
    intros cfg Hcfg. injection Hcfg as <-.
    split; [exists proxy; auto|].
    split; [reflexivity|].
    split; [apply init_path_slash|].
    split; [intros Hroute; unfold env_route; rewrite Hroute; reflexivity|].
    split.
    { pose proof (env_headers_value w hv Hhv) as Hv. unfold __init__. simpl.
      destruct (environ w !! "VGS_HEADERS_JSON") as [h|].
      - destruct (String.eqb h ""); [subst hv; reflexivity|].
        exists hv. auto.
      - subst hv. reflexivity. }
    split; [exact Ht|].
    intros Hnone. simpl. rewrite Hnone, H30 in Ht. injection Ht as <-.
    reflexivity.
Qed.

End FromEnv.

(** ** The network facade *)

Section Facade.

Import vgs_client tokenization_api.

Variable json_loads : string -> JSON + string.
Variable py_float : string -> spec_float + string.

Lemma tokenize_run req w :
  tokenize json_loads py_float req w =
    match from_env json_loads py_float w with
    | (Raise e, w1) =>
        (Raise (HTTPException 500 ("VGS client init failed: " ++ exc_str e)), w1)
    | (Ok client, w1) =>
        match tokenize_records client (records req) (batch_key req) w1 with
        | (Raise e, w2) =>
            (Raise (HTTPException 502
                      ("VGS tokenization failed: " ++ exc_str e)), w2)
        | (Ok out, w2) => (new_TokenizeResponse out, w2)
        end
    end.
Proof.
  unfold tokenize, bind, try_except, raise, lift.
  destruct (from_env json_loads py_float w) as [[client|e] w1]; [|reflexivity].
  destruct (tokenize_records client (records req) (batch_key req) w1)
    as [[out|e] w2]; reflexivity.
Qed.

(** C7.  The health check returns [{"status": "ok"}] in every world and
    leaves the world as it found it: no request is sent, nothing is read or
    written, whatever the environment holds and whatever the proxy would
    answer. *)
Theorem health_ok w :
  health w = (Ok (JDict [("status", JStr "ok")]), w).
Proof. reflexivity. Qed.

(** C4 (amended).  For every tokenize request: when construction of the
    client from the environment fails, the facade answers 500 with a detail
    that contains the error's text; when the delegated [tokenize_records]
    call fails, it answers 502 with a detail that contains the error's text;
    when that call succeeds with a sequence of JSON objects, it answers 200
    with that sequence, in the order the client returned it; and when the
    sequence holds an element that is no JSON object, the response model's
    [ValidationError] leaves the handler and no such answer is built.  Every
    answer other than 200 is one of the first two: a detail that contains the
    text of the error that caused it. *)
Theorem tokenize_status req w :
  let out := fst (tokenize json_loads py_float req w) in
  let reply := http_reply out in
  (forall e w1,
     from_env json_loads py_float w = (Raise e, w1) ->
     exists detail,
       reply = Some (500, JDict [("detail", JStr detail)]) /\
       contains detail (exc_str e)) /\
  (forall client w1 e w2,
     from_env json_loads py_float w = (Ok client, w1) ->
     tokenize_records client (records req) (batch_key req) w1 = (Raise e, w2) ->
     exists detail,
       reply = Some (502, JDict [("detail", JStr detail)]) /\
       contains detail (exc_str e)) /\
  (forall client w1 l w2,
     from_env json_loads py_float w = (Ok client, w1) ->
     tokenize_records client (records req) (batch_key req) w1 = (Ok l, w2) ->
     forallb is_dict l = true ->
     reply = Some (200, JDict [("records", JList l)])) /\
  (forall client w1 l w2,
     from_env json_loads py_float w = (Ok client, w1) ->
     tokenize_records client (records req) (batch_key req) w1 = (Ok l, w2) ->
     forallb is_dict l = false ->
     reply = None /\ exists msg, out = Raise (Exc ValidationError msg)) /\
  (forall code body,
     reply = Some (code, body) -> code <> 200 ->
     exists detail e,
       body = JDict [("detail", JStr detail)] /\
       contains detail (exc_str e) /\
       ((code = 500 /\
         exists w1, from_env json_loads py_float w = (Raise e, w1)) \/
        (code = 502 /\
         exists client w1 w2,
           from_env json_loads py_float w = (Ok client, w1) /\
           tokenize_records client (records req) (batch_key req) w1
             = (Raise e, w2)))).
Proof.
  intros out reply. subst reply out. rewrite tokenize_run.
  destruct (from_env json_loads py_float w) as [[client|e] w1].
  - destruct (tokenize_records client (records req) (batch_key req) w1)
      as [[l|e] w2] eqn:Hcall; simpl.
    + unfold new_TokenizeResponse.
      split; [discriminate|]. split.
      { intros c w1' e w2' Hc He. injection Hc as <- <-.
        rewrite Hcall in He. discriminate. }
      split.
      { intros c w1' l' w2' Hc Hl Hd. injection Hc as <- <-.
        rewrite Hcall in Hl. injection Hl as <- <-. rewrite Hd. reflexivity. }
      split.
      { intros c w1' l' w2' Hc Hl Hd. injection Hc as <- <-.
        rewrite Hcall in Hl. injection Hl as <- <-. rewrite Hd.
        split; [reflexivity|eexists; reflexivity]. }
      intros code body. destruct (forallb is_dict l); simpl.
      * intros H Hne. injection H as <- _. contradiction.
      * discriminate.
    + split; [discriminate|]. split.
      { intros c w1' e' w2' Hc He. injection Hc as <- <-.
        rewrite Hcall in He. injection He as <- <-.
        eexists. split; [reflexivity|apply contains_suffix]. }
      split.
      { intros c w1' l w2' Hc Hl. injection Hc as <- <-.
        rewrite Hcall in Hl. discriminate. }
      split.
      { intros c w1' l w2' Hc Hl. injection Hc as <- <-.
        rewrite Hcall in Hl. discriminate. }
      intros code body H _. injection H as <- <-.
      eexists. exists e. split; [reflexivity|].
      split; [apply contains_suffix|].
      right. split; [reflexivity|]. exists client, w1, w2. auto.
  - simpl. split.
    { intros e' w1' He. injection He as <- <-.
      eexists. split; [reflexivity|apply contains_suffix]. }
    split; [discriminate|]. split; [discriminate|]. split; [discriminate|].
    intros code body H _. injection H as <- <-.
    eexists. exists e. split; [reflexivity|].
    split; [apply contains_suffix|].
    left. split; [reflexivity|]. exists w1. reflexivity.
Qed.

End Facade.

(** ** The batch driver *)

Section Driver.

Import tokenize_pii_vgs.

Lemma post_tokenize_run records url w :
  post_tokenize records url None float_30 w =
    (api_decoded (server w (sent w) (api_request url records)),
     after_request (api_request url records) w).
Proof.
  unfold post_tokenize, bind, lift, http_post, api_decoded. simpl.
  fold (api_request url records).
  destruct (server w (sent w) (api_request url records)) as [e|r];
    [reflexivity|].
  unfold raise_for_status. destruct (is_success r); [|reflexivity].
  destruct (json r) as [v|e]; [|reflexivity].
  destruct v; reflexivity.
Qed.

Lemma loop_body_run args df i out_rows w :
  loop_body args df i out_rows w =
    let recs := batch_at df (batch_size args) i in
    let rq := api_request (api_url args) recs in
    (match api_decoded (server w (sent w) rq) with
     | Ok toks => checked recs out_rows toks
     | Raise e => Raise e
     end, after_request rq w).
Proof.
  unfold loop_body, bind. fold (batch_at df (batch_size args) i).
  rewrite post_tokenize_run. simpl.
  destruct (api_decoded _) as [toks|e]; [|reflexivity].
  unfold lift, checked. destruct (py_len toks) as [n|e]; [|reflexivity].
  destruct (Nat.eqb n _); [|reflexivity]. simpl.
  destruct (py_iter toks); reflexivity.
Qed.

Lemma loop_body_world args df i out_rows w :
  snd (loop_body args df i out_rows w) =
    after_request (api_request (api_url args) (batch_at df (batch_size args) i)) w.
Proof. rewrite loop_body_run. reflexivity. Qed.

(** The loop sends requests and does nothing else to the world. *)
Lemma for_each_batch_world args df indices : forall out_rows w,
  let w' := snd (for_each_batch args df indices out_rows w) in
  written w' = written w /\ stdout w' = stdout w /\
  csv_files w' = csv_files w /\ server w' = server w /\
  exists reqs, sent w' = (sent w ++ reqs)%list.
Proof.
  induction indices as [|i indices IH]; intros out_rows w; simpl.
  - repeat split; try reflexivity. exists []. rewrite app_nil_r. reflexivity.
  - unfold bind.
    pose proof (loop_body_world args df i out_rows w) as Hw.
    destruct (loop_body args df i out_rows w) as [[out'|e] w1]; simpl in Hw;
      subst w1.
    + destruct (IH out' (after_request
                 (api_request (api_url args) (batch_at df (batch_size args) i)) w))
        as (H1 & H2 & H3 & H4 & reqs & H5).
      repeat split; try assumption.
      exists (api_request (api_url args) (batch_at df (batch_size args) i) :: reqs).
      rewrite H5. simpl. rewrite <- app_assoc. reflexivity.
    + simpl. repeat split; try reflexivity. eexists. reflexivity.
Qed.

Lemma for_each_batch_app args df pre : forall post out_rows w,
  for_each_batch args df (pre ++ post) out_rows w =
    match for_each_batch args df pre out_rows w with
    | (Ok out', w') => for_each_batch args df post out' w'
    | (Raise e, w') => (Raise e, w')
    end.
Proof.
  induction pre as [|i pre IH]; intros post out_rows w; simpl; [reflexivity|].
  unfold bind. destruct (loop_body args df i out_rows w) as [[out'|e] w1];
    [apply IH|reflexivity].
Qed.

Lemma main_run args w :
  main args w =
    match csv_files w !! input args with
    | None => (Raise (Exc FileNotFoundError
                        ("[Errno 2] No such file or directory: '"
                         ++ input args ++ "'")), w)
    | Some df =>
        match py_range 0 (df_len df) (batch_size args) with
        | Raise e => (Raise e, w)
        | Ok indices =>
            match for_each_batch args df indices [] w with
            | (Raise e, w') => (Raise e, w')
            | (Ok out_rows, w') =>
                (Ok 0,
                 snd (print ("Tokenized " ++ pretty (length out_rows)
                             ++ " rows -> " ++ output args)
                        (snd (to_csv out_rows (output args) w'))))
            end
        end
    end.
Proof.
  unfold main, bind, read_csv, lift.
  destruct (csv_files w !! input args) as [df|]; [|reflexivity].
  destruct (py_range 0 (df_len df) (batch_size args)) as [indices|e];
    [|reflexivity].
  destruct (for_each_batch args df indices [] w) as [[out_rows|e] w'];
    reflexivity.
Qed.

(** *** Slicing into batches *)

Lemma py_slice_chunk {A : Type} (i size : Z) (l : list A) :
  0 <= i -> 0 < size ->
  py_slice i (i + size) l = firstn (Z.to_nat size) (skipn (Z.to_nat i) l).
Proof.
  intros Hi Hs. unfold py_slice, slice_bound.
  destruct (i <? 0) eqn:Hi0; [apply Z.ltb_lt in Hi0; lia|].
  destruct (i + size <? 0) eqn:Hj0; [apply Z.ltb_lt in Hj0; lia|].
  set (len := Z.of_nat (length l)).
  destruct (Z.le_gt_cases i len) as [Hle|Hgt].
  - rewrite (Z.min_l i len Hle).
    destruct (Z.le_gt_cases (i + size) len) as [Hle2|Hgt2].
    + rewrite (Z.min_l _ _ Hle2). f_equal. f_equal. lia.
    + rewrite (Z.min_r (i + size) len) by lia.
      rewrite !firstn_all2; [reflexivity| |]; rewrite length_skipn; subst len; lia.
  - rewrite (Z.min_r i len) by lia. rewrite (Z.min_r (i + size) len) by lia.
    rewrite Z.sub_diag. simpl.
    assert (Hnil : skipn (Z.to_nat i) l = [])
      by (apply skipn_all2; subst len; lia).
    rewrite Hnil, firstn_nil. reflexivity.
Qed.

Lemma chunks_concat {A : Type} (b : nat) : forall (m : nat) (l : list A),
  (length l <= m * b)%nat ->
  concat (map (fun k => firstn b (skipn (k * b) l)) (seq 0 m)) = l.
Proof.
  induction m as [|m IH]; intros l Hl.
  - destruct l; [reflexivity|simpl in Hl; lia].
  - rewrite <- cons_seq, <- seq_shift. simpl. rewrite map_map.
    transitivity (firstn b l ++ skipn b l)%list; [|apply firstn_skipn].
    f_equal.
    rewrite <- (IH (skipn b l)) by (rewrite length_skipn; lia).
    f_equal. apply map_ext. intros k. rewrite skipn_skipn.
    f_equal. f_equal. lia.
Qed.

Lemma range_count_bounds (n size : Z) :
  0 < size -> 0 <= n ->
  0 <= range_count n size /\ n <= range_count n size * size /\
  (forall k, 0 <= k < range_count n size -> k * size < n).
Proof.
  intros Hs Hn. unfold range_count. destruct (0 <? n) eqn:H0.
  - apply Z.ltb_lt in H0. rewrite Z.sub_0_r.
    pose proof (Z.div_mod (n - 1) size ltac:(lia)) as Hdm.
    pose proof (Z.mod_pos_bound (n - 1) size Hs) as Hmb.
    pose proof (Z.div_pos (n - 1) size ltac:(lia) Hs) as Hdp.
    repeat split; nia.
  - apply Z.ltb_ge in H0. repeat split; lia.
Qed.

Lemma py_range_pos (n size : Z) :
  0 < size ->
  py_range 0 n size =
    Ok (map (fun k => Z.of_nat k * size)
          (seq 0 (Z.to_nat (range_count n size)))).
Proof.
  intros Hs. unfold py_range, range_count.
  destruct (size =? 0) eqn:H0; [apply Z.eqb_eq in H0; lia|].
  destruct (0 <? size) eqn:H1; [|apply Z.ltb_ge in H1; lia].
  reflexivity.
Qed.

Lemma batch_at_chunk df size k :
  0 < size ->
  batch_at df size (Z.of_nat k * size) =
    map (row_dict df)
      (firstn (Z.to_nat size) (skipn (k * Z.to_nat size) (rows df))).
Proof.
  intros Hs. unfold batch_at, to_dict_records, iloc. simpl.
  rewrite py_slice_chunk by lia.
  rewrite Z2Nat.inj_mul, Nat2Z.id by lia. reflexivity.
Qed.

Lemma batches_chunks df size :
  0 < size ->
  batches df size =
    map (fun k => map (row_dict df)
                    (firstn (Z.to_nat size)
                       (skipn (k * Z.to_nat size) (rows df))))
      (seq 0 (Z.to_nat (range_count (df_len df) size))).
Proof.
  intros Hs. unfold batches. rewrite py_range_pos by exact Hs.
  rewrite map_map. apply map_ext. intros k. apply batch_at_chunk. exact Hs.
Qed.

Lemma batches_concat df size :
  0 < size -> concat (batches df size) = to_dict_records df.
Proof.
  intros Hs. rewrite batches_chunks by exact Hs.
  rewrite <- (map_map (fun k => firstn (Z.to_nat size)
                                  (skipn (k * Z.to_nat size) (rows df)))
                (map (row_dict df))).
  rewrite <- concat_map. unfold to_dict_records. f_equal.
  apply chunks_concat.
  destruct (range_count_bounds (df_len df) size Hs) as (H0 & Hn & _);
    [unfold df_len; lia|].
  unfold df_len in *. nia.
Qed.

Lemma batches_sizes df size :
  0 < size ->
  Forall (fun b => 1 <= Z.of_nat (length b) <= size) (batches df size).
Proof.
  intros Hs. rewrite batches_chunks by exact Hs.
  apply List.Forall_forall. intros b Hb. apply in_map_iff in Hb.
  destruct Hb as (k & <- & Hk). apply in_seq in Hk.
  destruct (range_count_bounds (df_len df) size Hs) as (H0 & _ & Hlt);
    [unfold df_len; lia|].
  specialize (Hlt (Z.of_nat k) ltac:(lia)).
  rewrite length_map, length_firstn, length_skipn.
  unfold df_len in Hlt. nia.
Qed.

Lemma batches_five_by_two df :
  length (rows df) = 5%nat -> map (@length JSON) (batches df 2) = [2; 2; 1]%nat.
Proof.
  intros H5. rewrite batches_chunks by lia. unfold df_len. rewrite H5.
  destruct df as [cols rws]. simpl in *.
  destruct rws as [|r1 [|r2 [|r3 [|r4 [|r5 [|r6 rws]]]]]]; try discriminate.
  reflexivity.
Qed.

(** *** Runs of the driver *)

Lemma for_each_batch_answers args df indices :
  forall answers out_rows w,
    Forall2 answers_with
      (replay (server w) (sent w)
         (map (fun i => api_request (api_url args)
                          (batch_at df (batch_size args) i)) indices))
      answers ->
    Forall2 (fun b a => length a = length b)
      (map (batch_at df (batch_size args)) indices) answers ->
    exists w',
      for_each_batch args df indices out_rows w
        = (Ok (out_rows ++ concat answers)%list, w') /\
      sent w' = (sent w ++ map (fun i => api_request (api_url args)
                                  (batch_at df (batch_size args) i)) indices)%list /\
      written w' = written w /\ stdout w' = stdout w.
Proof.
  induction indices as [|i indices IH]; intros answers out_rows w Hans Hlen.
  - inversion Hans; subst. simpl. exists w.
    rewrite !app_nil_r. auto.
  - simpl in Hans, Hlen.
    inversion Hans as [|o a os answers' Ha Hrest]; subst.
    inversion Hlen as [|b a' bs answers'' Hla Hlrest]; subst.
    destruct Ha as (r & d & Hr & Hs & Hj & Hd).
    simpl. unfold bind. rewrite loop_body_run. simpl.
    rewrite Hr. unfold api_decoded. rewrite Hs, Hj, Hd.
    unfold checked. simpl. rewrite Hla, Nat.eqb_refl.
    set (rq := api_request (api_url args) (batch_at df (batch_size args) i)).
    destruct (IH answers' (out_rows ++ a)%list (after_request rq w))
      as (w' & Hrun & Hsent & Hwr & Hout); [exact Hrest|exact Hlrest|].
    exists w'. rewrite Hrun, Hsent. simpl.
    rewrite <- !app_assoc. auto.
Qed.

(** C3.  For every data set and every positive [batch_size]: the batches the
    driver cuts are contiguous, in row order, of at least one and at most
    [batch_size] rows each, and together make up the whole data set (five rows
    cut by two give batches of 2, 2 and 1 rows); and when the API answers each
    batch with as many records as it was sent, the driver issues exactly one
    request per batch, in batch order, and writes as output the concatenation
    of the answers in that order. *)
Theorem main_batches args w df :
  0 < batch_size args ->
  csv_files w !! input args = Some df ->
  let bs := batches df (batch_size args) in
  let reqs := map (api_request (api_url args)) bs in
  concat bs = to_dict_records df /\
  Forall (fun b => 1 <= Z.of_nat (length b) <= batch_size args) bs /\
  (length (rows df) = 5%nat -> batch_size args = 2 ->
   map (@length JSON) bs = [2; 2; 1]%nat) /\
  (forall answers,
     Forall2 answers_with (replay (server w) (sent w) reqs) answers ->
     Forall2 (fun b a => length a = length b) bs answers ->
     exists w',
       main args w = (Ok 0, w') /\
       sent w' = (sent w ++ reqs)%list /\
       written w' = <[output args := concat answers]> (written w)).
Proof.
  intros Hs Hdf bs reqs.
  split; [apply batches_concat; exact Hs|].
  split; [apply batches_sizes; exact Hs|].
  split; [intros H5 H2; subst bs; rewrite H2; apply batches_five_by_two; exact H5|].
  intros answers Hans Hlen.
  subst reqs bs. unfold batches in *.
  rewrite main_run, Hdf.
  destruct (py_range 0 (df_len df) (batch_size args)) as [indices|e] eqn:Hrange;
    [|rewrite py_range_pos in Hrange by exact Hs; discriminate].
  rewrite map_map in Hans.
  destruct (for_each_batch_answers args df indices answers [] w Hans Hlen)
    as (w' & Hrun & Hsent & Hwr & Hout).
  rewrite Hrun. eexists. split; [reflexivity|].
  simpl. rewrite Hsent, Hwr, map_map. auto.
Qed.

(** C2.  For every data set: if the loop reaches a batch whose tokenize call
    returns a value whose length differs from the number of rows of that
    batch, [main] fails with [CountMismatchError] right after that call (no
    further request is sent), and nothing has been written or printed. *)
Theorem main_count_mismatch args w df pre i post out_rows w1 toks w2 n :
  csv_files w !! input args = Some df ->
  py_range 0 (df_len df) (batch_size args) = Ok (pre ++ i :: post)%list ->
  for_each_batch args df pre [] w = (Ok out_rows, w1) ->
  let recs := batch_at df (batch_size args) i in
  post_tokenize recs (api_url args) None float_30 w1 = (Ok toks, w2) ->
  py_len toks = Ok n ->
  n <> length recs ->
  main args w = (Raise (count_mismatch n (length recs)), w2) /\
  CountMismatchError (count_mismatch n (length recs)) /\
  sent w2 = (sent w1 ++ [api_request (api_url args) recs])%list /\
  written w2 = written w /\ stdout w2 = stdout w.
Proof.
  intros Hdf Hrange Hpre recs Hcall Hlen Hne.
  pose proof (for_each_batch_world args df pre [] w) as Hworld.
  rewrite Hpre in Hworld. simpl in Hworld.
  destruct Hworld as (Hwr & Hout & _).
  pose proof (post_tokenize_run recs (api_url args) w1) as Hpost.
  rewrite Hcall in Hpost. injection Hpost as Hdec Hw2.
  split.
  - rewrite main_run, Hdf, Hrange, for_each_batch_app, Hpre. simpl.
    unfold bind, loop_body. fold (batch_at df (batch_size args) i). fold recs.
    unfold bind. rewrite Hcall. unfold lift. rewrite Hlen.
    apply Nat.eqb_neq in Hne. rewrite Hne. reflexivity.
  - split; [eexists; eexists; reflexivity|].
    subst w2. simpl. auto.
Qed.

(** C10 (amended).  For every API response with a success status whose body
    decodes to a JSON object without a "records" key, [post_tokenize] returns
    the empty list and raises nothing; the turn of the loop that made the
    call then fails with [CountMismatchError] ("returned 0 records") when its
    batch is not empty, and goes on with the accumulated rows unchanged when
    its batch is empty. *)
Theorem post_tokenize_missing_records args df i out_rows w r d :
  let recs := batch_at df (batch_size args) i in
  server w (sent w) (api_request (api_url args) recs) = NetResponse r ->
  is_success r = true ->
  json r = Ok (JDict d) ->
  dict_get "records" d = None ->
  fst (post_tokenize recs (api_url args) None float_30 w) = Ok (JList []) /\
  (recs <> [] ->
   fst (loop_body args df i out_rows w) = Raise (count_mismatch 0 (length recs))
   /\ CountMismatchError (count_mismatch 0 (length recs))) /\
  (recs = [] -> fst (loop_body args df i out_rows w) = Ok out_rows).
Proof.
  intros recs Hr Hs Hj Hd.
  assert (Hdec : api_decoded (server w (sent w)
                                (api_request (api_url args) recs)) = Ok (JList []))
    by (rewrite Hr; unfold api_decoded; rewrite Hs, Hj, Hd; reflexivity).
  split; [rewrite post_tokenize_run, Hdec; reflexivity|].
  rewrite loop_body_run. fold recs. simpl. rewrite Hdec.
  unfold checked. simpl. split.
  - intros Hne. destruct recs as [|rec recs']; [congruence|]. simpl.
    split; [reflexivity|eexists; eexists; reflexivity].
  - intros ->. simpl. rewrite app_nil_r. reflexivity.
Qed.

End Driver.

(** ** The properties on the sample worlds *)

Section Samples.

Import vgs_client tokenization_api tokenize_pii_vgs samples.

(** C1 as first stated fails at [batch_key=""]: it is given, yet the payload
    sent is the bare sequence and not [{"": records}]. *)
Lemma tokenize_records_empty_key_payload :
  ~ (map req_json
       (sent (snd (tokenize_records client [alice] (Some "") (world_of [] echo))))
     = [JDict [("", JList [alice])]]).
Proof. vm_compute. discriminate. Qed.

Lemma tokenize_records_shape_witness :
  request_headers client = Ok [("Content-Type", JStr "application/json")] /\
  fst (tokenize_records client [alice] (Some "records") (world_of [] echo))
    = Ok [alice] /\
  (exists e, fst (tokenize_records client [alice] None (world_of [] health_only))
             = Raise e /\ ShapeError e).
Proof.
  split; [reflexivity|].
  split.
  - destruct (tokenize_records_shape client [alice] (world_of [] echo) _ eq_refl)
      as [Hkeyed _].
    destruct (Hkeyed "records") as [_ H]; [discriminate|].
    exact (H _ _ eq_refl eq_refl eq_refl).
  - destruct (tokenize_records_shape client [alice] (world_of [] health_only)
                _ eq_refl) as [_ Hbare].
    destruct (Hbare None) as [_ H]; [left; reflexivity|].
    exact (H _ _ eq_refl eq_refl eq_refl).
Defined.

(** C6 as first stated fails on a gateway's error page: the body is not valid
    JSON, yet the error raised is the status error, not a [DecodeError]. *)
Lemma tokenize_json_error_page :
  ~ (exists err,
       fst (tokenize_json client (JList [alice]) (world_of [] bad_gateway))
         = Raise err /\ DecodeError err).
Proof.
  intros (err & Herr & body & Hbody). vm_compute in Herr.
  injection Herr as <-. discriminate.
Qed.

Lemma tokenize_json_not_json_witness :
  is_success plain_text_page = true /\
  exists err first200 rest,
    fst (tokenize_json client (JList [alice]) (world_of [] plain_text))
      = Raise err /\
    DecodeError err /\
    contains (exc_str err) first200 /\
    "pong" = first200 ++ rest /\
    String.length first200 = 4%nat.
Proof.
  split; [reflexivity|].
  exact (tokenize_json_not_json client (JList [alice]) (world_of [] plain_text)
           _ plain_text_page _ eq_refl eq_refl eq_refl eq_refl eq_refl).
Defined.

Lemma tokenize_records_round_trip :
  fst (tokenize_records client [] None (world_of [] echo)) = Ok [] /\
  fst (tokenize_records client [alice] (Some "records") (world_of [] echo))
    = Ok [alice].
Proof.
  split.
  - exact (proj1 (tokenize_records_passthrough client [] None (world_of [] echo)
                    _ _ _ eq_refl eq_refl eq_refl eq_refl) eq_refl).
  - exact (proj1 (tokenize_records_passthrough client [alice] (Some "records")
                    (world_of [] echo) _ _ _ eq_refl eq_refl eq_refl eq_refl)
             eq_refl).
Defined.

(** C5 as first stated fails on a timeout that is not a number: the URL is
    set and the headers are not malformed, yet no configuration comes out. *)
Lemma from_env_bad_timeout :
  ~ (exists cfg,
       fst (from_env sample_json_loads sample_float
              (world_of [("VGS_PROXY_URL", proxy_url); ("VGS_TIMEOUT", "abc")]
                 echo))
       = Ok cfg).
Proof. intros (cfg & Hcfg). vm_compute in Hcfg. discriminate. Qed.

Lemma from_env_spec_witness :
  sample_float "30" = inl float_30 /\
  (exists cfg,
     fst (from_env sample_json_loads sample_float
            (world_of [("VGS_PROXY_URL", proxy_url)] echo)) = Ok cfg /\
     base cfg = proxy_url /\ path cfg = "/post" /\
     headers cfg = JDict [] /\ timeout cfg = float_30) /\
  (exists cfg,
     fst (from_env sample_json_loads sample_float
            (world_of [("VGS_PROXY_URL", proxy_url ++ "/");
                       ("VGS_ROUTE_PATH", "tokenize");
                       ("VGS_HEADERS_JSON", "{}")] echo)) = Ok cfg /\
     base cfg = proxy_url /\ path cfg = "/tokenize") /\
  (exists e,
     fst (from_env sample_json_loads sample_float (world_of [] echo)) = Raise e
     /\ ConfigError sample_json_loads sample_float e) /\
  fst (from_env sample_json_loads sample_float
         (world_of [("VGS_PROXY_URL", proxy_url); ("VGS_TIMEOUT", "abc")] echo))
    = Raise (Exc ValueError "could not convert string to float: 'abc'").
Proof.
  split; [reflexivity|].
  split; [|split; [|split]].
  - destruct (from_env_spec sample_json_loads sample_float
                (world_of [("VGS_PROXY_URL", proxy_url)] echo) eq_refl)
      as (_ & _ & _ & _ & _ & _ & Hcfg).
    exists client. split; [vm_compute; reflexivity|].
    destruct (Hcfg client)
      as ((proxy & Hp & _ & Hbase) & _ & _ & Hpath & Hheaders & _ & Htimeout);
      [vm_compute; reflexivity|].
    split.
    { rewrite Hbase. vm_compute in Hp. injection Hp as <-. reflexivity. }
    split; [apply Hpath; vm_compute; reflexivity|].
    split; [exact Hheaders|].
    apply Htimeout. vm_compute. reflexivity.
  - destruct (from_env_spec sample_json_loads sample_float
                (world_of [("VGS_PROXY_URL", proxy_url ++ "/");
                           ("VGS_ROUTE_PATH", "tokenize");
                           ("VGS_HEADERS_JSON", "{}")] echo) eq_refl)
      as (_ & _ & _ & _ & _ & _ & Hcfg).
    exists (__init__ proxy_url "tokenize" (JDict []) float_30).
    split; [vm_compute; reflexivity|].
    destruct (Hcfg (__init__ proxy_url "tokenize" (JDict []) float_30))
      as ((proxy & Hp & _ & Hbase) & Hpath & _);
      [vm_compute; reflexivity|].
    split; [|exact Hpath].
    rewrite Hbase. vm_compute in Hp. injection Hp as <-. reflexivity.
  - destruct (from_env_spec sample_json_loads sample_float (world_of [] echo)
                eq_refl) as (_ & Hfails & _).
    apply Hfails. left. left. vm_compute. reflexivity.
  - destruct (from_env_spec sample_json_loads sample_float
                (world_of [("VGS_PROXY_URL", proxy_url); ("VGS_TIMEOUT", "abc")]
                   echo) eq_refl) as (_ & _ & _ & _ & _ & Htimeout & _).
    apply Htimeout.
    + intros [H|H]; vm_compute in H; discriminate.
    + intros (h & msg & Hh & _). vm_compute in Hh. discriminate.
    + vm_compute. reflexivity.
Defined.

(** C4 as first stated fails when the proxy answers 200 with [[1]]: the
    client is built and [tokenize_records] succeeds, yet the facade answers
    neither 200 with that sequence nor a detail: the response model rejects
    the element and its error leaves the handler. *)
Lemma tokenize_non_object_reply :
  let req := {| records := [alice]; batch_key := None |} in
  let w := world_of [("VGS_PROXY_URL", proxy_url)] more_samples.numbers_proxy in
  fst (from_env sample_json_loads sample_float w) = Ok client /\
  fst (tokenize_records client (records req) (batch_key req) w) = Ok [JInt 1] /\
  ~ (http_reply (fst (tokenize sample_json_loads sample_float req w))
     = Some (200, JDict [("records", JList [JInt 1])])) /\
  ~ (exists code detail,
       http_reply (fst (tokenize sample_json_loads sample_float req w))
       = Some (code, JDict [("detail", JStr detail)])).
Proof.
  split; [vm_compute; reflexivity|]. split; [vm_compute; reflexivity|].
  split; [vm_compute; discriminate|].
  intros (code & detail & H). vm_compute in H. discriminate.
Qed.

Lemma tokenize_status_witness :
  let req := {| records := [alice]; batch_key := None |} in
  (exists detail,
     http_reply (fst (tokenize sample_json_loads sample_float req
                        (world_of [] echo)))
       = Some (500, JDict [("detail", JStr detail)]) /\
     contains detail "VGS_PROXY_URL is not set") /\
  (exists detail,
     http_reply (fst (tokenize sample_json_loads sample_float req
                        (world_of [("VGS_PROXY_URL", proxy_url)] unreachable)))
       = Some (502, JDict [("detail", JStr detail)]) /\
     contains detail "All connection attempts failed") /\
  http_reply (fst (tokenize sample_json_loads sample_float req
                     (world_of [("VGS_PROXY_URL", proxy_url)] echo)))
    = Some (200, JDict [("records", JList [alice])]) /\
  http_reply (fst (tokenize sample_json_loads sample_float req
                     (world_of [("VGS_PROXY_URL", proxy_url)]
                        more_samples.numbers_proxy)))
    = None.
Proof.
  intros req. split; [|split; [|split]].
  - destruct (tokenize_status sample_json_loads sample_float req
                (world_of [] echo)) as (H500 & _).
    apply (H500 url_not_set (world_of [] echo)). vm_compute. reflexivity.
  - destruct (tokenize_status sample_json_loads sample_float req
                (world_of [("VGS_PROXY_URL", proxy_url)] unreachable))
      as (_ & H502 & _).
    apply (H502 client (world_of [("VGS_PROXY_URL", proxy_url)] unreachable)
             (Exc HTTPError "All connection attempts failed")
             (snd (tokenize_records client [alice] None
                     (world_of [("VGS_PROXY_URL", proxy_url)] unreachable)))).
    + vm_compute. reflexivity.
    + reflexivity.
  - destruct (tokenize_status sample_json_loads sample_float req
                (world_of [("VGS_PROXY_URL", proxy_url)] echo))
      as (_ & _ & H200 & _).
    apply (H200 client (world_of [("VGS_PROXY_URL", proxy_url)] echo) [alice]
             (snd (tokenize_records client [alice] None
                     (world_of [("VGS_PROXY_URL", proxy_url)] echo)))).
    + vm_compute. reflexivity.
    + reflexivity.
    + reflexivity.
  - destruct (tokenize_status sample_json_loads sample_float req
                (world_of [("VGS_PROXY_URL", proxy_url)]
                   more_samples.numbers_proxy))
      as (_ & _ & _ & Hnone & _).
    apply (Hnone client
             (world_of [("VGS_PROXY_URL", proxy_url)] more_samples.numbers_proxy)
             [JInt 1]
             (snd (tokenize_records client [alice] None
                     (world_of [("VGS_PROXY_URL", proxy_url)]
                        more_samples.numbers_proxy)))).
    + vm_compute. reflexivity.
    + reflexivity.
    + reflexivity.
Defined.

Lemma main_count_mismatch_witness :
  fst (main sample_args (driver_world short_after_first))
    = Raise (count_mismatch 1 2) /\
  length (sent (snd (main sample_args (driver_world short_after_first))))
    = 2%nat /\
  written (snd (main sample_args (driver_world short_after_first))) = ∅.
Proof.
  set (w := driver_world short_after_first).
  set (w1 := snd (for_each_batch sample_args people [0] [] w)).
  set (w2 := snd (post_tokenize (batch_at people 2 2)
                    "http://127.0.0.1:8080/tokenize" None float_30 w1)).
  destruct (main_count_mismatch sample_args w people [0] 2 [4]
              (batch_at people 2 0) w1 (JList [alice]) w2 1%nat)
    as (Hmain & _ & Hsent & Hwritten & _).
  - vm_compute. reflexivity.
  - reflexivity.
  - vm_compute. reflexivity.
  - vm_compute. reflexivity.
  - reflexivity.
  - vm_compute. discriminate.
  - rewrite Hmain. cbn [fst snd]. split; [reflexivity|].
    split; [rewrite Hsent; reflexivity|exact Hwritten].
Defined.

Lemma main_batches_witness :
  map (@length JSON) (batches people 2) = [2; 2; 1]%nat /\
  fst (main sample_args (driver_world echo)) = Ok 0 /\
  map req_json (sent (snd (main sample_args (driver_world echo))))
    = map (fun b => JDict [("records", JList b)]) (batches people 2) /\
  written (snd (main sample_args (driver_world echo))) !! "tokenized.csv"
    = Some (to_dict_records people).
Proof.
  destruct (main_batches sample_args (driver_world echo) people)
    as (Hconcat & _ & Hfive & Hrun).
  - reflexivity.
  - vm_compute. reflexivity.
  - split; [apply Hfive; reflexivity|].
    destruct (Hrun (batches people 2)) as (w' & Hmain & Hsent & Hwritten).
    + repeat constructor;
        (eexists; eexists; split; [reflexivity|];
         split; [reflexivity|]; split; reflexivity).
    + repeat constructor.
    + rewrite Hmain. cbn [fst snd]. split; [reflexivity|].
      split; [rewrite Hsent; reflexivity|].
      rewrite Hwritten, lookup_insert_eq.
      change (batches people (batch_size sample_args)) with (batches people 2)
        in Hconcat.
      rewrite Hconcat. reflexivity.
Defined.

(** C10 as first stated fails on the facade's own error reply, which is valid
    JSON without a "records" key: [post_tokenize] raises the status error and
    returns nothing.  It fails as well on a 200 reply whose JSON is a bare
    list: [data.get] raises [AttributeError]. *)
Lemma post_tokenize_error_reply :
  ~ (fst (post_tokenize (batch_at people 2 0) "http://127.0.0.1:8080/tokenize"
            None float_30 (driver_world failing_api))
     = Ok (JList [])) /\
  ~ (fst (post_tokenize (batch_at people 2 0) "http://127.0.0.1:8080/tokenize"
            None float_30 (driver_world bare_list_api))
     = Ok (JList [])).
Proof. split; vm_compute; discriminate. Qed.

Lemma post_tokenize_missing_records_witness :
  dict_get "records" [("status", JStr "ok")] = None /\
  fst (post_tokenize (batch_at people 2 0) "http://127.0.0.1:8080/tokenize"
         None float_30 (driver_world health_only)) = Ok (JList []) /\
  fst (loop_body sample_args people 0 [] (driver_world health_only))
    = Raise (count_mismatch 0 2) /\
  fst (loop_body sample_args people 6 [alice] (driver_world health_only))
    = Ok [alice].
Proof.
  split; [reflexivity|].
  destruct (post_tokenize_missing_records sample_args people 0 []
              (driver_world health_only) status_ok [("status", JStr "ok")]
              eq_refl eq_refl eq_refl eq_refl) as (Hpost & Hfull & _).
  destruct (post_tokenize_missing_records sample_args people 6 [alice]
              (driver_world health_only) status_ok [("status", JStr "ok")]
              eq_refl eq_refl eq_refl eq_refl) as (_ & _ & Hempty).
  split; [exact Hpost|].
  split; [apply Hfull; discriminate|apply Hempty; reflexivity].
Defined.

End Samples.

(** * Further properties of the code *)

(** ** Construction of a client *)

Section Construction.

Import vgs_client.

Lemma rstrip_slashes (s : string) :
  ends_with "/" (rstrip "/" s) = false /\
  exists n, s = rstrip "/" s ++ slashes n.
Proof.
  induction s as [|a s [IHe [n IHn]]]; simpl.
  - split; [reflexivity|]. exists 0%nat. reflexivity.
  - destruct (Ascii.eqb a "/") eqn:Ha; simpl.
    + destruct (String.eqb (rstrip "/" s) "") eqn:Hr; simpl.
      * split; [reflexivity|]. exists (S n).
        apply Ascii.eqb_eq in Ha. apply String.eqb_eq in Hr.
        rewrite Hr in IHn. rewrite append_empty_l in *. simpl. congruence.
      * split.
        -- destruct (rstrip "/" s) as [|b r]; [discriminate|exact IHe].
        -- exists n. rewrite append_cons. congruence.
    + split.
      * destruct (rstrip "/" s) as [|b r]; [exact Ha|exact IHe].
      * exists n. rewrite append_cons. congruence.
Qed.

Lemma rstrip_fixed (s : string) :
  ends_with "/" s = false -> rstrip "/" s = s.
Proof.
  induction s as [|a s IH]; [reflexivity|]. intros He. simpl.
  destruct s as [|b s'].
  - simpl in *. rewrite He. reflexivity.
  - rewrite (IH He). simpl. rewrite Bool.andb_false_r. reflexivity.
Qed.

(** X1.  A client's base is the proxy URL without its trailing slashes, and
    its path is the route with a slash put in front unless it has one: the
    base never ends with "/", the path always starts with "/", and the
    endpoint is the base followed by the path, that is, the base, one slash,
    and the rest of the path. *)
Theorem init_normalizes proxy_url route_path extra_headers timeout :
  let c := __init__ proxy_url route_path extra_headers timeout in
  ends_with "/" (base c) = false /\
  (exists n, proxy_url = base c ++ slashes n) /\
  startswith_slash (path c) = true /\
  (startswith_slash route_path = true -> path c = route_path) /\
  (startswith_slash route_path = false -> path c = "/" ++ route_path) /\
  _endpoint c = base c ++ path c /\
  (exists rest, path c = "/" ++ rest /\ _endpoint c = base c ++ "/" ++ rest).
Proof.
  intros c. subst c. unfold __init__, _endpoint. simpl.
  destruct (rstrip_slashes proxy_url) as [He Hn].
  split; [exact He|]. split; [exact Hn|].
  destruct (startswith_slash route_path) eqn:Hr.
  - repeat split; auto; try discriminate.
    destruct route_path as [|a rest]; [discriminate|].
    simpl in Hr. apply Ascii.eqb_eq in Hr. subst a.
    exists rest. split; reflexivity.
  - repeat split; auto; try discriminate.
    exists route_path. split; reflexivity.
Qed.

(** X2.  Normalization is idempotent: a client rebuilt from the fields of a
    client is that client. *)
Theorem init_idempotent proxy_url route_path extra_headers timeout :
  let c := __init__ proxy_url route_path extra_headers timeout in
  __init__ (base c) (path c) (headers c) (vgs_client.timeout c) = c.
Proof.
  intros c. subst c. unfold __init__. simpl.
  destruct (rstrip_slashes proxy_url) as [He _].
  rewrite (rstrip_fixed _ He).
  f_equal.
  - destruct (startswith_slash route_path) eqn:Hr; [rewrite Hr|]; reflexivity.
  - destruct (truthy extra_headers) eqn:Ht; [rewrite Ht|]; reflexivity.
Qed.

End Construction.

(** ** Calls of the proxy client *)

Section ClientCalls.

Import vgs_client.

(** X3.  On a client whose extra headers are a mapping, [tokenize_json]
    returns [v] exactly when the proxy answers 2xx with a body that decodes
    to [v], which it hands back unchanged; and whatever it raises is the
    transport's own error, the status error of a non-2xx answer (whatever its
    body), the "not JSON" error of an undecodable 2xx body, or an error of
    the decoder that is no [ValueError]. *)
Theorem tokenize_json_outcomes self payload w hdrs :
  request_headers self = Ok hdrs ->
  let o := server w (sent w) (proxy_request self hdrs payload) in
  (forall v,
     fst (tokenize_json self payload w) = Ok v <->
     exists r, o = NetResponse r /\ is_success r = true /\ json r = Ok v) /\
  (forall e,
     fst (tokenize_json self payload w) = Raise e ->
     o = NetRaise e \/
     (exists r, o = NetResponse r /\ is_success r = false /\
                e = Exc HTTPStatusError (status_error r)) \/
     (exists r e0, o = NetResponse r /\ is_success r = true /\
                   json r = Raise e0 /\
                   (is_ValueError e0 = true /\ e = not_json_error r \/
                    is_ValueError e0 = false /\ e = e0))).
Proof.
  intros Hh o. rewrite (tokenize_json_run self payload w hdrs Hh). fold o.
  simpl. unfold decoded. split.
  - intros v. split.
    + destruct o as [e|r]; [discriminate|].
      destruct (is_success r) eqn:Hs; [|discriminate].
      destruct (json r) as [v'|e] eqn:Hj.
      * intros H. injection H as <-. exists r. auto.
      * destruct (is_ValueError e); discriminate.
    + intros (r & -> & Hs & Hj). rewrite Hs, Hj. reflexivity.
  - intros e. destruct o as [e'|r].
    + intros H. injection H as <-. left. reflexivity.
    + destruct (is_success r) eqn:Hs.
      * destruct (json r) as [v|e0] eqn:Hj; [discriminate|].
        destruct (is_ValueError e0) eqn:Hv; intros H; injection H as <-;
          right; right; exists r, e0; (split; [reflexivity|]);
          (split; [assumption|]); (split; [assumption|]);
          [left|right]; split; auto.
      * intros H. injection H as <-. right. left. exists r. auto.
Qed.

Lemma tokenize_records_sent self records batch_key w hdrs :
  request_headers self = Ok hdrs ->
  snd (tokenize_records self records batch_key w) =
    after_request (proxy_request self hdrs (wrapped records batch_key)) w.
Proof.
  intros Hh. unfold wrapped. destruct batch_key as [k|].
  - destruct (String.eqb k "") eqn:Hk.
    + apply String.eqb_eq in Hk. subst k.
      change (tokenize_records self records (Some "") w)
        with (tokenize_records self records None w).
      rewrite tokenize_records_bare, (tokenize_json_run self _ w hdrs Hh).
      destruct (decoded _) as [t|e]; [|reflexivity]. destruct t; reflexivity.
    + apply String.eqb_neq in Hk.
      rewrite (tokenize_records_keyed self records k w Hk),
        (tokenize_json_run self _ w hdrs Hh).
      destruct (decoded _) as [t|e]; [|reflexivity].
      destruct t; try reflexivity.
      destruct (dict_get k fields) as [v|]; [|reflexivity].
      destruct v; reflexivity.
  - rewrite tokenize_records_bare, (tokenize_json_run self _ w hdrs Hh).
    destruct (decoded _) as [t|e]; [|reflexivity]. destruct t; reflexivity.
Qed.

Lemma tokenize_records_bad_headers self records batch_key w e :
  request_headers self = Raise e ->
  tokenize_records self records batch_key w = (Raise e, w).
Proof.
  intros Hh. unfold tokenize_records, bind.
  rewrite (tokenize_json_bad_headers self _ w e Hh). reflexivity.
Qed.

(** X4.  [tokenize_records] does nothing to the world but send at most one
    request: exactly one, carrying the wrapped records to the client's
    endpoint, when the client's extra headers are a mapping, and none at all
    otherwise, in which case it raises the [TypeError] of the header merge. *)
Theorem tokenize_records_frame self records batch_key w :
  match request_headers self with
  | Ok hdrs =>
      snd (tokenize_records self records batch_key w) =
        after_request (proxy_request self hdrs (wrapped records batch_key)) w
  | Raise e =>
      tokenize_records self records batch_key w = (Raise e, w) /\
      e = Exc TypeError ("'" ++ type_name (headers self)
                         ++ "' object is not a mapping")
  end.
Proof.
  destruct (request_headers self) as [hdrs|e] eqn:Hh.
  - apply tokenize_records_sent. exact Hh.
  - split; [apply tokenize_records_bad_headers; exact Hh|].
    unfold request_headers in Hh.
    destruct (headers self); try discriminate; injection Hh as <-; reflexivity.
Qed.

Lemma dict_get_set_eq k v d : dict_get k (dict_set k v d) = Some v.
Proof.
  induction d as [|[k' v'] d IH]; simpl.
  - rewrite String.eqb_refl. reflexivity.
  - destruct (String.eqb k k') eqn:Hk; simpl; rewrite Hk; [reflexivity|exact IH].
Qed.

Lemma dict_get_set_ne k k' v d :
  k <> k' -> dict_get k (dict_set k' v d) = dict_get k d.
Proof.
  intros Hne. induction d as [|[k0 v0] d IH]; simpl.
  - rewrite (proj2 (String.eqb_neq k k') Hne). reflexivity.
  - destruct (String.eqb k' k0) eqn:Hk; simpl.
    + apply String.eqb_eq in Hk. subst k0.
      rewrite (proj2 (String.eqb_neq k k') Hne). reflexivity.
    + destruct (String.eqb k k0); [reflexivity|exact IH].
Qed.

Lemma dict_get_absent k d :
  k ∉ map fst d -> dict_get k d = None.
Proof.
  induction d as [|[k' v'] d IH]; simpl; [reflexivity|].
  intros Hn. apply not_elem_of_cons in Hn as [Hne Hn].
  rewrite (proj2 (String.eqb_neq k k') Hne). apply IH. exact Hn.
Qed.

Lemma dict_merge_get k d : forall a,
  NoDup (map fst d) ->
  dict_get k (dict_merge a d) =
    match dict_get k d with
    | Some v => Some v
    | None => dict_get k a
    end.
Proof.
  unfold dict_merge.
  induction d as [|[k1 v1] d IH]; intros a Hnd; simpl; [reflexivity|].
  inversion Hnd as [|x l Hnotin Hnd']; subst.
  rewrite (IH _ Hnd').
  destruct (String.eqb k k1) eqn:Hk.
  - apply String.eqb_eq in Hk. subst k1.
    rewrite (dict_get_absent k d Hnotin). apply dict_get_set_eq.
  - apply String.eqb_neq in Hk.
    destruct (dict_get k d); [reflexivity|].
    apply dict_get_set_ne. exact Hk.
Qed.

(** X5.  The headers sent with a request are the client's extra headers (a
    dict, so its keys are distinct), each with its value, plus
    "Content-Type: application/json" unless the extra headers set that key
    themselves, and no other header. *)
Theorem request_headers_merged self d :
  headers self = JDict d ->
  NoDup (map fst d) ->
  exists hdrs,
    request_headers self = Ok hdrs /\
    (forall k v, dict_get k d = Some v -> dict_get k hdrs = Some v) /\
    (dict_get "Content-Type" d = None ->
     dict_get "Content-Type" hdrs = Some (JStr "application/json")) /\
    (forall k, k <> "Content-Type" -> dict_get k d = None ->
               dict_get k hdrs = None).
Proof.
  intros Hd Hnd. unfold request_headers. rewrite Hd.
  eexists. split; [reflexivity|].
  split; [|split].
  - intros k v Hk. rewrite (dict_merge_get k d _ Hnd), Hk. reflexivity.
  - intros Hk. rewrite (dict_merge_get _ d _ Hnd), Hk. reflexivity.
  - intros k Hne Hk. rewrite (dict_merge_get k d _ Hnd), Hk. simpl.
    rewrite (proj2 (String.eqb_neq k "Content-Type") Hne). reflexivity.
Qed.

(** X7.  Whatever [tokenize_records] raises is an error of [tokenize_json]
    for the wrapped payload, handed on unchanged, or one of its two shape
    errors; of these, "Unexpected VGS response shape for batch_key mode" is
    raised only by a keyed call whose decoded response is no dict or lacks
    the key, and "VGS response is not a list of records" only otherwise. *)
Theorem tokenize_records_errors self records batch_key w e w' :
  tokenize_records self records batch_key w = (Raise e, w') ->
  tokenize_json self (wrapped records batch_key) w = (Raise e, w') \/
  (exists t,
     tokenize_json self (wrapped records batch_key) w = (Ok t, w') /\
     (e = shape_error_keyed /\
      (exists k, batch_key = Some k /\ k <> "" /\
                 (is_dict t = false \/ key_in k t = false))
      \/
      e = shape_error_list /\
      (forall k, batch_key = Some k -> k <> "" ->
                 is_dict t = true /\ key_in k t = true))).
Proof.
  unfold wrapped. destruct batch_key as [k|].
  - destruct (String.eqb k "") eqn:Hk.
    + apply String.eqb_eq in Hk. subst k.
      change (tokenize_records self records (Some "") w)
        with (tokenize_records self records None w).
      rewrite tokenize_records_bare.
      destruct (tokenize_json self (JList records) w) as [[t|e0] w0].
      * destruct t; intros H; try discriminate; injection H as <- <-; right;
          eexists; (split; [reflexivity|]); right;
          (split; [reflexivity|intros k Hk Hne; injection Hk as <-; congruence]).
      * intros H. injection H as <- <-. left. reflexivity.
    + apply String.eqb_neq in Hk.
      rewrite (tokenize_records_keyed self records k w Hk).
      destruct (tokenize_json self (JDict [(k, JList records)]) w)
        as [[t|e0] w0].
      * destruct t;
          try (intros H; injection H as <- <-; right; eexists;
               (split; [reflexivity|]); left;
               (split; [reflexivity|]); exists k; auto; fail).
        destruct (dict_get k fields) as [v|] eqn:Hg.
        -- destruct v; intros H; try discriminate; injection H as <- <-;
             right; eexists; (split; [reflexivity|]); right;
             (split; [reflexivity|]);
             intros k0 Hk0 _; injection Hk0 as <-; simpl; rewrite Hg; auto.
        -- intros H. injection H as <- <-. right. eexists.
           split; [reflexivity|]. left. split; [reflexivity|].
           exists k. split; [reflexivity|]. split; [exact Hk|].
           right. simpl. rewrite Hg. reflexivity.
      * intros H. injection H as <- <-. left. reflexivity.
  - rewrite tokenize_records_bare.
    destruct (tokenize_json self (JList records) w) as [[t|e0] w0].
    + destruct t; intros H; try discriminate; injection H as <- <-; right;
        eexists; (split; [reflexivity|]); right;
        (split; [reflexivity|intros k Hk; discriminate]).
    + intros H. injection H as <- <-. left. reflexivity.
Qed.

End ClientCalls.

(** ** Configuration and the facade *)

Section Configured.

Import vgs_client tokenization_api.

Variable json_loads : string -> JSON + string.
Variable py_float : string -> spec_float + string.

(** X6.  [VGS_HEADERS_JSON] is decoded but its shape is not checked: a value
    that is false as a condition ([null], [0], [""], [[]], [{}]) gives a
    client without extra headers, and any other value becomes the client's
    headers as it is; when that value is no JSON object, construction still
    succeeds, and every call of the client raises [TypeError] without sending
    anything. *)
Theorem from_env_headers_unchecked w proxy h v :
  environ w !! "VGS_PROXY_URL" = Some proxy -> proxy <> "" ->
  environ w !! "VGS_HEADERS_JSON" = Some h -> h <> "" ->
  json_loads h = inl v ->
  ~ timeout_malformed py_float w ->
  exists c,
    from_env json_loads py_float w = (Ok c, w) /\
    (truthy v = false -> headers c = JDict []) /\
    (truthy v = true -> headers c = v) /\
    (truthy v = true -> is_dict v = false ->
     forall records batch_key w',
       tokenize_records c records batch_key w' =
         (Raise (Exc TypeError ("'" ++ type_name v
                                ++ "' object is not a mapping")), w')).
Proof.
  intros Hp Hpe Hh Hhe Hj Ht.
  rewrite from_env_run, Hp, (eqb_empty proxy Hpe).
  unfold env_headers, loads. rewrite Hh, (eqb_empty h Hhe), Hj.
  destruct (env_timeout py_float w) as [t|e] eqn:Het.
  2:{ exfalso. apply Ht. apply env_timeout_fails. eauto. }
  eexists. split; [reflexivity|]. unfold __init__. simpl.
  split; [intros ->; reflexivity|]. split; [intros ->; reflexivity|].
  intros Htr Hd records batch_key w'. rewrite Htr.
  apply tokenize_records_bad_headers. unfold request_headers. simpl.
  destruct v; try discriminate; reflexivity.
Qed.

(** X8.  The facade has four outcomes and no other: a response model whose
    records are all JSON objects, an [HTTPException] with status 500 (the
    client could not be built), one with status 502 (the call failed), or
    the [ValidationError] of the response model, which leaves the handler
    exactly when the client returned a sequence with an element that is no
    JSON object. *)
Theorem tokenize_outcomes req w :
  let out := fst (tokenize json_loads py_float req w) in
  match out with
  | Ok resp => forallb is_dict (response_records resp) = true
  | Raise (HTTPException code detail) =>
      (code = 500 /\ exists e, detail = "VGS client init failed: " ++ exc_str e)
      \/ (code = 502 /\ exists e, detail = "VGS tokenization failed: " ++ exc_str e)
  | Raise (Exc cls _) => cls = ValidationError
  end /\
  (http_reply out = None <->
   exists client w1 l w2,
     from_env json_loads py_float w = (Ok client, w1) /\
     tokenize_records client (records req) (batch_key req) w1 = (Ok l, w2) /\
     forallb is_dict l = false).
Proof.
  intros out. subst out. rewrite tokenize_run.
  destruct (from_env json_loads py_float w) as [[client|e] w1].
  - destruct (tokenize_records client (records req) (batch_key req) w1)
      as [[l|e] w2] eqn:Hcall; simpl.
    + unfold new_TokenizeResponse.
      destruct (forallb is_dict l) eqn:Hl; simpl.
      * split; [exact Hl|]. split; [discriminate|].
        intros (c & w1' & l' & w2' & Hc & Hr & Hf).
        injection Hc as <- <-. rewrite Hcall in Hr.
        injection Hr as <- <-. congruence.
      * split; [reflexivity|]. split; [|reflexivity].
        intros _. exists client, w1, l, w2. auto.
    + split; [right; split; [reflexivity|eauto]|].
      split; [discriminate|].
      intros (c & w1' & l' & w2' & Hc & Hr & Hf).
      injection Hc as <- <-. rewrite Hcall in Hr. discriminate.
  - simpl. split; [left; split; [reflexivity|eauto]|].
    split; [discriminate|].
    intros (c & w1' & l' & w2' & Hc & _). discriminate.
Qed.

(** X9.  The facade touches the world only through the client it builds:
    when the client cannot be built nothing is sent; when it can, and its
    extra headers are a mapping, exactly one request goes out, to the
    endpoint the environment names, carrying the request's records wrapped
    by its [batch_key]. *)
Theorem tokenize_frame req w :
  (forall e w1,
     from_env json_loads py_float w = (Raise e, w1) ->
     snd (tokenize json_loads py_float req w) = w) /\
  (forall client w1 hdrs,
     from_env json_loads py_float w = (Ok client, w1) ->
     request_headers client = Ok hdrs ->
     snd (tokenize json_loads py_float req w) =
       after_request
         (proxy_request client hdrs (wrapped (records req) (batch_key req))) w).
Proof.
  rewrite tokenize_run.
  pose proof (from_env_run json_loads py_float w) as Hrun.
  destruct (from_env json_loads py_float w) as [[client|e] w1] eqn:Hfe.
  - injection Hrun as _ ->. split; [discriminate|].
    intros c w1' hdrs Hc Hh. injection Hc as <- <-.
    pose proof (tokenize_records_sent client (records req) (batch_key req) w
                  hdrs Hh) as Hf.
    destruct (tokenize_records client (records req) (batch_key req) w)
      as [[l|e] w2]; exact Hf.
  - injection Hrun as _ ->. split; [|discriminate].
    intros e' w1' H. injection H as <- <-. reflexivity.
Qed.

End Configured.

(** ** Calls of the API by the driver *)

Section DriverCalls.

Import tokenize_pii_vgs.

Lemma post_tokenize_run_keyed records url batch_key t w :
  post_tokenize records url batch_key t w =
    (api_decoded (server w (sent w) (api_request_keyed url records batch_key t)),
     after_request (api_request_keyed url records batch_key t) w).
Proof.
  assert (Hreq :
    {| req_url := url; req_headers := [];
       req_json :=
         JDict (match truthy_key batch_key with
                | Some k => dict_set "batch_key" (JStr k)
                              [("records", JList records)]
                | None => [("records", JList records)]
                end);
       req_timeout := t |} = api_request_keyed url records batch_key t).
  { unfold api_request_keyed, truthy_key. destruct batch_key as [k|];
      [destruct (String.eqb k "")|]; reflexivity. }
  unfold post_tokenize, bind, lift, http_post, api_decoded.
  rewrite Hreq.
  destruct (server w (sent w) (api_request_keyed url records batch_key t))
    as [e|r]; [reflexivity|].
  unfold raise_for_status. destruct (is_success r); [|reflexivity].
  destruct (json r) as [v|e]; [|reflexivity].
  destruct v; reflexivity.
Qed.

(** X10.  [post_tokenize] always sends exactly one request and does nothing
    else to the world: to the given URL, with no headers of its own, with
    the records under "records", and with a "batch_key" entry exactly when
    [batch_key] is a non-empty string; so [batch_key=""] is the same call
    as [batch_key=None]. *)
Theorem post_tokenize_request records url batch_key t w :
  snd (post_tokenize records url batch_key t w) =
    after_request (api_request_keyed url records batch_key t) w /\
  post_tokenize records url (Some "") t w = post_tokenize records url None t w /\
  dict_get "records" (match req_json (api_request_keyed url records batch_key t)
                      with JDict d => d | _ => [] end) = Some (JList records) /\
  (forall k, dict_get "batch_key"
               (match req_json (api_request_keyed url records batch_key t)
                with JDict d => d | _ => [] end) = Some k <->
             exists s, batch_key = Some s /\ s <> "" /\ k = JStr s).
Proof.
  split; [rewrite post_tokenize_run_keyed; reflexivity|].
  split; [rewrite !post_tokenize_run_keyed; reflexivity|].
  unfold api_request_keyed. simpl.
  destruct batch_key as [s|]; [destruct (String.eqb s "") eqn:Hs|]; simpl.
  - split; [reflexivity|]. intros k. split; [discriminate|].
    intros (s' & Hs' & Hne & _). injection Hs' as <-.
    apply String.eqb_eq in Hs. contradiction.
  - split; [reflexivity|]. intros k. split.
    + intros H. injection H as <-. exists s. apply String.eqb_neq in Hs. auto.
    + intros (s' & Hs' & _ & ->). injection Hs' as <-. reflexivity.
  - split; [reflexivity|]. intros k. split; [discriminate|].
    intros (s' & Hs' & _). discriminate.
Qed.

(** X11.  [post_tokenize] returns [v] exactly when the API answers 2xx with
    a JSON object, [v] being its value under "records" (of any type) or the
    empty list when it has none; and whatever it raises is the transport's
    own error, the status error of a non-2xx answer, the decoder's own
    error for a body that is not JSON (handed on as it is, not rewrapped),
    or the [AttributeError] of calling [get] on JSON that is no object. *)
Theorem post_tokenize_outcomes records url batch_key t w :
  let o := server w (sent w) (api_request_keyed url records batch_key t) in
  (forall v,
     fst (post_tokenize records url batch_key t w) = Ok v <->
     exists r d, o = NetResponse r /\ is_success r = true /\
                 json r = Ok (JDict d) /\
                 v = match dict_get "records" d with
                     | Some x => x
                     | None => JList []
                     end) /\
  (forall e,
     fst (post_tokenize records url batch_key t w) = Raise e ->
     o = NetRaise e \/
     (exists r, o = NetResponse r /\ is_success r = false /\
                e = Exc HTTPStatusError (status_error r)) \/
     (exists r, o = NetResponse r /\ is_success r = true /\ json r = Raise e) \/
     (exists r v, o = NetResponse r /\ is_success r = true /\ json r = Ok v /\
                  is_dict v = false /\
                  e = Exc AttributeError
                        ("'" ++ type_name v ++ "' object has no attribute 'get'"))).
Proof.
  intros o. rewrite post_tokenize_run_keyed. fold o. simpl.
  unfold api_decoded. split.
  - intros v. split.
    + destruct o as [e|r]; [discriminate|].
      destruct (is_success r) eqn:Hs; [|discriminate].
      destruct (json r) as [v'|e] eqn:Hj; [|discriminate].
      destruct v'; try discriminate.
      intros H. injection H as <-. exists r, fields. auto.
    + intros (r & d & -> & Hs & Hj & ->). rewrite Hs, Hj. reflexivity.
  - intros e. destruct o as [e'|r].
    + intros H. injection H as <-. left. reflexivity.
    + destruct (is_success r) eqn:Hs.
      * destruct (json r) as [v|e0] eqn:Hj.
        -- destruct v; try discriminate; intros H; injection H as <-;
             right; right; right; eexists; eexists;
             (split; [reflexivity|]); (split; [assumption|]);
             (split; [exact Hj|]); split; reflexivity.
        -- intros H. injection H as <-. right. right. left. exists r. auto.
      * intros H. injection H as <-. right. left. exists r. auto.
Qed.

(** X12.  The count check looks at the length of what came back and not at
    its type: a dict under "records" with as many keys as the batch has rows
    is accepted and its keys become output rows, a string of as many
    characters likewise; a value without a length ([null], a number, a
    boolean) makes the turn raise [TypeError], not a count mismatch. *)
Theorem count_check_untyped args df i out_rows w r d v :
  let recs := batch_at df (batch_size args) i in
  server w (sent w) (api_request (api_url args) recs) = NetResponse r ->
  is_success r = true ->
  json r = Ok (JDict d) ->
  dict_get "records" d = Some v ->
  (forall fields, v = JDict fields -> length fields = length recs ->
     fst (loop_body args df i out_rows w)
       = Ok (out_rows ++ map (fun kv => JStr (fst kv)) fields)%list) /\
  (forall s, v = JStr s -> String.length s = length recs ->
     fst (loop_body args df i out_rows w) = Ok (out_rows ++ chars s)%list) /\
  (is_list v = false -> is_dict v = false -> (forall s, v <> JStr s) ->
     fst (loop_body args df i out_rows w)
       = Raise (Exc TypeError
                  ("object of type '" ++ type_name v ++ "' has no len()"))).
Proof.
  intros recs Hr Hs Hj Hd.
  rewrite loop_body_run. fold recs. simpl.
  rewrite Hr. unfold api_decoded. rewrite Hs, Hj, Hd. unfold checked.
  split; [|split].
  - intros fields -> Hlen. simpl. rewrite Hlen, Nat.eqb_refl. reflexivity.
  - intros s -> Hlen. simpl. rewrite Hlen, Nat.eqb_refl. reflexivity.
  - intros Hl Hdict Hstr. destruct v; try discriminate; try reflexivity.
    exfalso. apply (Hstr s). reflexivity.
Qed.

End DriverCalls.

(** ** Runs of the driver, whatever the API answers *)

Section DriverRuns.

Import tokenize_pii_vgs.

Lemma chars_length (s : string) : length (chars s) = String.length s.
Proof. induction s as [|c s IH]; simpl; congruence. Qed.

Lemma py_iter_length v n :
  py_len v = Ok n -> exists items, py_iter v = Ok items /\ length items = n.
Proof.
  destruct v; simpl; intros H; try discriminate; injection H as <-;
    eexists; (split; [reflexivity|]).
  - apply chars_length.
  - reflexivity.
  - apply length_map.
Qed.

Lemma loop_body_length args df i out_rows w out' w' :
  loop_body args df i out_rows w = (Ok out', w') ->
  length out' = (length out_rows + length (batch_at df (batch_size args) i))%nat.
Proof.
  rewrite loop_body_run. simpl.
  destruct (api_decoded _) as [toks|e]; [|discriminate].
  unfold checked. destruct (py_len toks) as [n|e] eqn:Hn; [|discriminate].
  destruct (Nat.eqb n _) eqn:Heq; [|discriminate].
  destruct (py_iter_length toks n Hn) as (items & Hit & Hlen).
  rewrite Hit. intros H. injection H as <- _.
  apply Nat.eqb_eq in Heq. rewrite length_app. lia.
Qed.

Lemma for_each_batch_length args df indices : forall out_rows w out' w',
  for_each_batch args df indices out_rows w = (Ok out', w') ->
  length out' =
    (length out_rows
     + length (concat (map (batch_at df (batch_size args)) indices)))%nat.
Proof.
  induction indices as [|i indices IH]; intros out_rows w out' w'; simpl.
  - intros H. injection H as <- _. lia.
  - unfold bind.
    destruct (loop_body args df i out_rows w) as [[out1|e] w1] eqn:Hb;
      [|discriminate].
    intros H. apply IH in H. apply loop_body_length in Hb.
    rewrite length_app. lia.
Qed.

Lemma for_each_batch_sent args df indices : forall out_rows w,
  exists k,
    sent (snd (for_each_batch args df indices out_rows w)) =
      (sent w ++ firstn k (map (fun i => api_request (api_url args)
                                   (batch_at df (batch_size args) i)) indices))%list.
Proof.
  induction indices as [|i indices IH]; intros out_rows w; simpl.
  - exists 0%nat. rewrite app_nil_r. reflexivity.
  - unfold bind.
    pose proof (loop_body_world args df i out_rows w) as Hw.
    destruct (loop_body args df i out_rows w) as [[out1|e] w1]; simpl in Hw;
      subst w1.
    + destruct (IH out1 (after_request
                  (api_request (api_url args) (batch_at df (batch_size args) i)) w))
        as [k Hk].
      exists (S k). rewrite Hk. simpl. rewrite <- app_assoc. reflexivity.
    + exists 1%nat. reflexivity.
Qed.

(** X13.  No partial output, whatever goes wrong: whenever [main] raises,
    for any reason and at any batch, nothing has been written and nothing
    printed. *)
Theorem main_failure_writes_nothing args w e w' :
  main args w = (Raise e, w') ->
  written w' = written w /\ stdout w' = stdout w /\
  csv_files w' = csv_files w /\ environ w' = environ w.
Proof.
  rewrite main_run.
  destruct (csv_files w !! input args) as [df|];
    [|intros H; injection H as _ <-; auto].
  destruct (py_range 0 (df_len df) (batch_size args)) as [indices|e0];
    [|intros H; injection H as _ <-; auto].
  pose proof (for_each_batch_world args df indices [] w) as Hworld.
  assert (Henv : environ (snd (for_each_batch args df indices [] w)) = environ w).
  { clear. generalize (@nil JSON). revert w.
    induction indices as [|i indices IH]; intros w out_rows; simpl;
      [reflexivity|].
    unfold bind. pose proof (loop_body_world args df i out_rows w) as Hw.
    destruct (loop_body args df i out_rows w) as [[out1|e] w1]; simpl in Hw;
      subst w1; [rewrite IH|]; reflexivity. }
  destruct (for_each_batch args df indices [] w) as [[out_rows|e0] w0];
    [discriminate|].
  simpl in Hworld, Henv. destruct Hworld as (Hwr & Hout & Hcsv & _).
  intros H. injection H as _ <-. auto.
Qed.

(** X14.  A run that succeeds returns 0, has written exactly one file, at
    the output path, and printed exactly one line reporting its number of
    rows; and with a positive [batch_size] that number is the number of rows
    read: the count check of every batch adds up. *)
Theorem main_success args w z w' :
  main args w = (Ok z, w') ->
  z = 0 /\
  exists df out_rows,
    csv_files w !! input args = Some df /\
    written w' = <[output args := out_rows]> (written w) /\
    stdout w' = (stdout w ++ [("Tokenized " ++ pretty (length out_rows)
                               ++ " rows -> " ++ output args)%string])%list /\
    (0 < batch_size args -> length out_rows = length (rows df)).
Proof.
  rewrite main_run.
  destruct (csv_files w !! input args) as [df|]; [|discriminate].
  destruct (py_range 0 (df_len df) (batch_size args)) as [indices|e0] eqn:Hrange;
    [|discriminate].
  pose proof (for_each_batch_world args df indices [] w) as Hworld.
  destruct (for_each_batch args df indices [] w) as [[out_rows|e0] w0] eqn:Hrun;
    [|discriminate].
  simpl in Hworld. destruct Hworld as (Hwr & Hout & _).
  intros H. injection H as <- <-. split; [reflexivity|].
  exists df, out_rows. split; [reflexivity|]. simpl.
  rewrite Hwr, Hout. split; [reflexivity|]. split; [reflexivity|].
  intros Hs. apply for_each_batch_length in Hrun. simpl in Hrun.
  rewrite Hrun.
  pose proof (batches_concat df (batch_size args) Hs) as Hc.
  unfold batches in Hc. rewrite Hrange in Hc. rewrite Hc.
  unfold to_dict_records. apply length_map.
Qed.

(** X15.  In every run, failed or not, the requests [main] has sent are the
    requests of the first few batches, one each, in batch order: no batch
    is skipped, repeated or retried. *)
Theorem main_requests_prefix args w df :
  csv_files w !! input args = Some df ->
  exists k,
    sent (snd (main args w)) =
      (sent w ++ firstn k (map (api_request (api_url args))
                             (batches df (batch_size args))))%list.
Proof.
  intros Hdf. rewrite main_run, Hdf. unfold batches.
  destruct (py_range 0 (df_len df) (batch_size args)) as [indices|e0].
  - destruct (for_each_batch_sent args df indices [] w) as [k Hk].
    exists k. rewrite map_map.
    destruct (for_each_batch args df indices [] w) as [[out_rows|e0] w0];
      exact Hk.
  - exists 0%nat. simpl. rewrite app_nil_r. reflexivity.
Qed.

(** X16.  A [batch_size] of zero makes [main] fail with the [ValueError] of
    [range] before any request is sent and without writing anything. *)
Theorem main_zero_batch_size args w df :
  csv_files w !! input args = Some df ->
  batch_size args = 0 ->
  main args w = (Raise (Exc ValueError "range() arg 3 must not be zero"), w).
Proof.
  intros Hdf H0. rewrite main_run, Hdf, H0. reflexivity.
Qed.

Lemma py_range_empty n size :
  0 <= n -> size <> 0 -> (size < 0 \/ n = 0) -> py_range 0 n size = Ok [].
Proof.
  intros Hn Hs Hc. unfold py_range.
  destruct (size =? 0) eqn:H0; [apply Z.eqb_eq in H0; contradiction|].
  destruct (0 <? size) eqn:Hpos.
  - apply Z.ltb_lt in Hpos. destruct Hc as [Hc|Hc]; [lia|]. subst n.
    reflexivity.
  - destruct (n <? 0) eqn:Hneg; [apply Z.ltb_lt in Hneg; lia|]. reflexivity.
Qed.

(** X17.  With a negative [batch_size], or with a data set of no rows, [main]
    sends no request at all and succeeds: it writes an output of no rows and
    reports 0 rows.  A negative batch size thus drops every row of the
    input without an error. *)
Theorem main_no_batches args w df :
  csv_files w !! input args = Some df ->
  batch_size args <> 0 ->
  batch_size args < 0 \/ rows df = [] ->
  exists w',
    main args w = (Ok 0, w') /\
    sent w' = sent w /\
    written w' = <[output args := []]> (written w) /\
    stdout w' = (stdout w ++ [("Tokenized 0 rows -> " ++ output args)%string])%list.
Proof.
  intros Hdf Hne Hc. rewrite main_run, Hdf.
  rewrite py_range_empty; [| unfold df_len; lia | exact Hne |].
  - simpl. eexists. split; [reflexivity|]. auto.
  - destruct Hc as [Hc|Hc]; [left; exact Hc|right].
    unfold df_len. rewrite Hc. reflexivity.
Qed.

(** X18.  Any error of any batch's call (transport, status, decoding, shape
    of the JSON) is the error of [main], unchanged: the run stops at that
    call, no later batch is requested, and nothing is written. *)
Theorem main_call_failure args w df pre i post out_rows w1 e w2 :
  csv_files w !! input args = Some df ->
  py_range 0 (df_len df) (batch_size args) = Ok (pre ++ i :: post)%list ->
  for_each_batch args df pre [] w = (Ok out_rows, w1) ->
  let recs := batch_at df (batch_size args) i in
  post_tokenize recs (api_url args) None float_30 w1 = (Raise e, w2) ->
  main args w = (Raise e, w2) /\
  sent w2 = (sent w1 ++ [api_request (api_url args) recs])%list /\
  written w2 = written w.
Proof.
  intros Hdf Hrange Hpre recs Hcall.
  pose proof (for_each_batch_world args df pre [] w) as Hworld.
  rewrite Hpre in Hworld. simpl in Hworld. destruct Hworld as (Hwr & _).
  pose proof (post_tokenize_run recs (api_url args) w1) as Hpost.
  rewrite Hcall in Hpost. injection Hpost as Hdec Hw2.
  split.
  - rewrite main_run, Hdf, Hrange, for_each_batch_app, Hpre. simpl.
    unfold bind, loop_body. fold (batch_at df (batch_size args) i). fold recs.
    unfold bind. rewrite Hcall. reflexivity.
  - subst w2. simpl. auto.
Qed.

(** X19.  With a positive [batch_size] the driver cuts as many batches as
    the row count divided by [batch_size], rounded up, and every batch but
    the last has exactly [batch_size] rows. *)
Theorem batches_full df size :
  0 < size ->
  Z.of_nat (length (batches df size)) = (df_len df + size - 1) / size /\
  forall k, (S k < length (batches df size))%nat ->
            Z.of_nat (length (nth k (batches df size) [])) = size.
Proof.
  intros Hs. rewrite batches_chunks by exact Hs.
  rewrite length_map, length_seq.
  assert (Hn : 0 <= df_len df) by (unfold df_len; lia).
  destruct (range_count_bounds (df_len df) size Hs Hn) as (H0 & Hcover & Hlt).
  assert (Hcount : range_count (df_len df) size = (df_len df + size - 1) / size).
  { unfold range_count. destruct (0 <? df_len df) eqn:Hpos.
    - rewrite Z.sub_0_r.
      replace (df_len df + size - 1) with (df_len df - 1 + 1 * size) by lia.
      rewrite Z.div_add by lia. reflexivity.
    - apply Z.ltb_ge in Hpos. assert (df_len df = 0) as -> by lia.
      symmetry. apply Z.div_small. lia. }
  split; [rewrite Z2Nat.id by exact H0; exact Hcount|].
  intros k Hk.
  set (f := fun k0 : nat =>
              map (row_dict df)
                (firstn (Z.to_nat size) (skipn (k0 * Z.to_nat size) (rows df)))).
  rewrite (nth_indep _ [] (f 0%nat))
    by (rewrite length_map, length_seq; lia).
  rewrite (map_nth f), seq_nth by lia. subst f. simpl.
  rewrite length_map, length_firstn, length_skipn.
  assert (Hfull : (Z.of_nat k + 1) * size < df_len df).
  { apply Hlt. lia. }
  unfold df_len in Hfull. nia.
Qed.

End DriverRuns.

(** ** The further properties on the sample worlds *)

Section MoreSamples.

Import vgs_client tokenization_api tokenize_pii_vgs samples more_samples.

Lemma tokenize_json_outcomes_witness :
  fst (tokenize_json client alice (world_of [] echo)) = Ok alice /\
  (exists r, bad_gateway [] (proxy_request client
                               [("Content-Type", JStr "application/json")] alice)
             = NetResponse r /\ is_success r = false /\
             fst (tokenize_json client alice (world_of [] bad_gateway))
               = Raise (Exc HTTPStatusError (status_error r))).
Proof.
  split.
  - destruct (tokenize_json_outcomes client alice (world_of [] echo) _ eq_refl)
      as [Hok _].
    apply Hok. eexists. repeat split; reflexivity.
  - destruct (tokenize_json_outcomes client alice (world_of [] bad_gateway) _
                eq_refl) as [_ Herr].
    destruct (Herr (Exc HTTPStatusError "Server error '502 Bad Gateway'")
                eq_refl) as [H|[(r & Hr & Hs & He)|(r & e0 & Hr & Hs & _)]].
    + discriminate.
    + exists r. split; [exact Hr|]. split; [exact Hs|].
      injection Hr as <-. reflexivity.
    + injection Hr as <-. discriminate.
Defined.

Lemma request_headers_merged_witness :
  NoDup (map fst bearer) /\
  exists hdrs,
    request_headers client_with_headers = Ok hdrs /\
    dict_get "Authorization" hdrs = Some (JStr "Bearer t") /\
    dict_get "Content-Type" hdrs = Some (JStr "application/json").
Proof.
  assert (Hnd : NoDup (map fst bearer)).
  { apply NoDup_cons. split; [apply not_elem_of_nil|apply NoDup_nil_2]. }
  split; [exact Hnd|].
  destruct (request_headers_merged client_with_headers bearer eq_refl Hnd)
    as (hdrs & Hh & Hkeep & Hct & _).
  exists hdrs. split; [exact Hh|].
  split; [apply Hkeep; reflexivity|apply Hct; reflexivity].
Defined.

Lemma from_env_headers_unchecked_witness :
  let w := world_of [("VGS_PROXY_URL", proxy_url); ("VGS_HEADERS_JSON", "[1]")]
             unreachable in
  exists c,
    from_env sample_json_loads' sample_float w = (Ok c, w) /\
    headers c = JList [JInt 1] /\
    fst (tokenize_records c [alice] None w)
      = Raise (Exc TypeError "'list' object is not a mapping") /\
    sent (snd (tokenize_records c [alice] None w)) = [].
Proof.
  intros w.
  destruct (from_env_headers_unchecked sample_json_loads' sample_float w
              proxy_url "[1]" (JList [JInt 1]))
    as (c & Hc & _ & Hv & Hcall).
  - vm_compute. reflexivity.
  - discriminate.
  - vm_compute. reflexivity.
  - discriminate.
  - reflexivity.
  - intros [msg Hmsg]. vm_compute in Hmsg. discriminate.
  - exists c. split; [exact Hc|]. split; [apply Hv; reflexivity|].
    rewrite (Hcall eq_refl eq_refl [alice] None w). split; reflexivity.
Defined.

Lemma tokenize_records_errors_witness :
  let w := world_of [] health_only in
  fst (tokenize_records client [alice] (Some "records") w)
    = Raise shape_error_keyed /\
  exists t, fst (tokenize_json client (JDict [("records", JList [alice])]) w)
            = Ok t /\ key_in "records" t = false.
Proof.
  intros w.
  set (w' := snd (tokenize_records client [alice] (Some "records") w)).
  assert (Hrun : tokenize_records client [alice] (Some "records") w
                 = (Raise shape_error_keyed, w')) by reflexivity.
  split; [rewrite Hrun; reflexivity|].
  destruct (tokenize_records_errors client [alice] (Some "records") w
              shape_error_keyed w' Hrun)
    as [Hjson|(t & Hjson & [(_ & k & Hk & _ & Hshape)|(He & _)])].
  - vm_compute in Hjson. discriminate.
  - exists t. change (wrapped [alice] (Some "records"))
      with (JDict [("records", JList [alice])]) in Hjson.
    rewrite Hjson. split; [reflexivity|].
    injection Hk as <-. destruct Hshape as [Hd|Hkey]; [|exact Hkey].
    assert (Ht : t = JDict [("status", JStr "ok")])
      by (vm_compute in Hjson; congruence).
    subst t. discriminate.
  - discriminate.
Defined.

Lemma count_check_untyped_witness :
  fst (loop_body sample_args people 0 []
         (driver_world (records_of (JDict [("name", JInt 1); ("card", JInt 2)]))))
    = Ok [JStr "name"; JStr "card"] /\
  fst (loop_body sample_args people 0 [] (driver_world (records_of (JStr "ab"))))
    = Ok [JStr "a"; JStr "b"] /\
  fst (loop_body sample_args people 0 [] (driver_world (records_of JNull)))
    = Raise (Exc TypeError "object of type 'NoneType' has no len()").
Proof.
  split; [|split].
  - destruct (count_check_untyped sample_args people 0 []
                (driver_world (records_of (JDict [("name", JInt 1);
                                                  ("card", JInt 2)])))
                _ _ _ eq_refl eq_refl eq_refl eq_refl) as (Hdict & _ & _).
    exact (Hdict _ eq_refl eq_refl).
  - destruct (count_check_untyped sample_args people 0 []
                (driver_world (records_of (JStr "ab")))
                _ _ _ eq_refl eq_refl eq_refl eq_refl) as (_ & Hstr & _).
    exact (Hstr _ eq_refl eq_refl).
  - destruct (count_check_untyped sample_args people 0 []
                (driver_world (records_of JNull))
                _ _ _ eq_refl eq_refl eq_refl eq_refl) as (_ & _ & Hnone).
    apply Hnone; [reflexivity|reflexivity|discriminate].
Defined.

Lemma main_failure_writes_nothing_witness :
  fst (main sample_args (driver_world unreachable))
    = Raise (Exc HTTPError "All connection attempts failed") /\
  written (snd (main sample_args (driver_world unreachable))) = ∅ /\
  stdout (snd (main sample_args (driver_world unreachable))) = [].
Proof.
  set (w := driver_world unreachable).
  assert (Hrun : main sample_args w
                 = (Raise (Exc HTTPError "All connection attempts failed"),
                    snd (main sample_args w))) by (vm_compute; reflexivity).
  destruct (main_failure_writes_nothing sample_args w _ _ Hrun)
    as (Hwr & Hout & _).
  split; [rewrite Hrun; reflexivity|]. split; [exact Hwr|exact Hout].
Defined.

Lemma main_success_witness :
  fst (main sample_args (driver_world echo)) = Ok 0 /\
  exists out_rows,
    written (snd (main sample_args (driver_world echo))) !! "tokenized.csv"
      = Some out_rows /\
    length out_rows = 5%nat /\
    stdout (snd (main sample_args (driver_world echo)))
      = ["Tokenized 5 rows -> tokenized.csv"].
Proof.
  set (w := driver_world echo).
  assert (Hrun : main sample_args w = (Ok 0, snd (main sample_args w)))
    by (vm_compute; reflexivity).
  destruct (main_success sample_args w _ _ Hrun)
    as (_ & df & out_rows & Hdf & Hwr & Hout & Hlen).
  assert (Hpeople : df = people)
    by (vm_compute in Hdf; injection Hdf as <-; reflexivity).
  subst df. specialize (Hlen eq_refl). simpl in Hlen.
  split; [rewrite Hrun; reflexivity|].
  exists out_rows. split; [rewrite Hwr; apply lookup_insert_eq|].
  split; [exact Hlen|]. rewrite Hout, Hlen. reflexivity.
Defined.

Lemma main_requests_prefix_witness :
  exists k,
    sent (snd (main sample_args (driver_world short_after_first)))
      = firstn k (map (api_request "http://127.0.0.1:8080/tokenize")
                    (batches people 2)) /\
    length (sent (snd (main sample_args (driver_world short_after_first))))
      = 2%nat.
Proof.
  destruct (main_requests_prefix sample_args (driver_world short_after_first)
              people) as [k Hk].
  - vm_compute. reflexivity.
  - exists k. split; [exact Hk|]. vm_compute. reflexivity.
Defined.

Lemma main_zero_batch_size_witness :
  fst (main (args_with_size 0) (driver_world echo))
    = Raise (Exc ValueError "range() arg 3 must not be zero") /\
  sent (snd (main (args_with_size 0) (driver_world echo))) = [].
Proof.
  rewrite (main_zero_batch_size (args_with_size 0) (driver_world echo) people);
    [split; reflexivity | vm_compute; reflexivity | reflexivity].
Defined.

Lemma main_no_batches_witness :
  fst (main (args_with_size (-2)) (driver_world echo)) = Ok 0 /\
  sent (snd (main (args_with_size (-2)) (driver_world echo))) = [] /\
  written (snd (main (args_with_size (-2)) (driver_world echo)))
    !! "tokenized.csv" = Some [] /\
  stdout (snd (main (args_with_size (-2)) (driver_world echo)))
    = ["Tokenized 0 rows -> tokenized.csv"].
Proof.
  destruct (main_no_batches (args_with_size (-2)) (driver_world echo) people)
    as (w' & Hrun & Hsent & Hwr & Hout).
  - vm_compute. reflexivity.
  - discriminate.
  - left. reflexivity.
  - rewrite Hrun. cbn [fst snd]. split; [reflexivity|].
    split; [exact Hsent|]. split; [rewrite Hwr; apply lookup_insert_eq|exact Hout].
Defined.

Lemma main_call_failure_witness :
  fst (main sample_args (driver_world failing_api))
    = Raise (Exc HTTPStatusError "Server error '502 Bad Gateway'") /\
  length (sent (snd (main sample_args (driver_world failing_api)))) = 1%nat /\
  written (snd (main sample_args (driver_world failing_api))) = ∅.
Proof.
  set (w := driver_world failing_api).
  set (w2 := snd (post_tokenize (batch_at people 2 0)
                    "http://127.0.0.1:8080/tokenize" None float_30 w)).
  destruct (main_call_failure sample_args w people [] 0 [2; 4] [] w
              (Exc HTTPStatusError "Server error '502 Bad Gateway'") w2)
    as (Hmain & Hsent & Hwr).
  - vm_compute. reflexivity.
  - reflexivity.
  - reflexivity.
  - vm_compute. reflexivity.
  - rewrite Hmain. cbn [fst snd]. split; [reflexivity|].
    split; [rewrite Hsent; reflexivity|exact Hwr].
Defined.

Lemma batches_full_witness :
  length (batches people 2) = 3%nat /\
  length (nth 0 (batches people 2) []) = 2%nat /\
  length (nth 1 (batches people 2) []) = 2%nat.
Proof.
  destruct (batches_full people 2) as [Hcount Hfull]; [reflexivity|].
  assert (Hthree : length (batches people 2) = 3%nat).
  { apply Nat2Z.inj. rewrite Hcount. reflexivity. }
  split; [exact Hthree|].
  split; apply Nat2Z.inj; apply Hfull; rewrite Hthree; lia.
Defined.

End MoreSamples.
